(** * ngspyce: the electronics value parser

    A shallow embedding of [ngspyce/electronics_value_parser.py] and of the
    Python builtins it calls ([float], [str.endswith], [str.strip],
    [str.split], [in], slicing, dict iteration), followed by theorems about
    [value_parser].

    Conventions of the embedding:
    - a Python [str] is a list of Unicode code points ([N]); the module
      starts with [unicode_literals], so every literal is a text string;
    - a Python [float] is an IEEE 754 binary64 value, given by the
      Standard Library's [spec_float] with precision 53 and [emax] 1024;
    - a [dict] is an association list in insertion order, which is the
      iteration order of CPython 3.7 and later;
    - a raised exception is the left injection of a sum. *)

From Stdlib Require Import List NArith ZArith Bool String Ascii Lia Permutation.
From Stdlib Require Import Floats.SpecFloat.
Import ListNotations.

Open Scope N_scope.

(** ** Text strings *)

Definition char := N.
Definition str := list char.

(** [lit "abc"] is the text string of an ASCII literal. *)
Definition lit (s : string) : str := map N_of_ascii (list_ascii_of_string s).

Definition str_eqb (a b : str) : bool :=
  if list_eq_dec N.eq_dec a b then true else false.

(** [s] without its leading characters that satisfy [p]. *)
Fixpoint dropwhile (p : char -> bool) (s : str) : str :=
  match s with
  | [] => []
  | c :: r => if p c then dropwhile p r else s
  end.

(** ** Unicode character data (Unicode 14.0, as shipped with CPython 3.11) *)

Module Unicode.

(** [str.isspace] on one code point: bidirectional class WS, B or S, or
    general category Zs. *)
Definition isspace (c : char) : bool :=
  ((0x9 <=? c) && (c <=? 0xd)) || ((0x1c <=? c) && (c <=? 0x20))
  || (c =? 0x85) || (c =? 0xa0) || (c =? 0x1680)
  || ((0x2000 <=? c) && (c <=? 0x200a))
  || (c =? 0x2028) || (c =? 0x2029) || (c =? 0x202f) || (c =? 0x205f)
  || (c =? 0x3000).

(** The code points of the digit zero of every decimal script: the
    characters with a decimal value are the ten starting at each. *)
Definition decimal_zeros : list char :=
  [ 0x30; 0x660; 0x6f0; 0x7c0; 0x966; 0x9e6; 0xa66; 0xae6; 0xb66; 0xbe6;
    0xc66; 0xce6; 0xd66; 0xde6; 0xe50; 0xed0; 0xf20; 0x1040; 0x1090;
    0x17e0; 0x1810; 0x1946; 0x19d0; 0x1a80; 0x1a90; 0x1b50; 0x1bb0;
    0x1c40; 0x1c50; 0xa620; 0xa8d0; 0xa900; 0xa9d0; 0xa9f0; 0xaa50;
    0xabf0; 0xff10; 0x104a0; 0x10d30; 0x11066; 0x110f0; 0x11136;
    0x111d0; 0x112f0; 0x11450; 0x114d0; 0x11650; 0x116c0; 0x11730;
    0x118e0; 0x11950; 0x11c50; 0x11d50; 0x11da0; 0x16a60; 0x16ac0;
    0x16b50; 0x1d7ce; 0x1d7d8; 0x1d7e2; 0x1d7ec; 0x1d7f6; 0x1e140;
    0x1e2f0; 0x1e950; 0x1fbf0 ].

(** [Py_UNICODE_TODECIMAL]: the decimal value of a digit character. *)
Definition todecimal (c : char) : option N :=
  match find (fun z => (z <=? c) && (c <? z + 10)) decimal_zeros with
  | Some z => Some (c - z)
  | None => None
  end.

End Unicode.

(** ** binary64 arithmetic *)

Module Float64.

Definition t := spec_float.

Definition prec : Z := 53.
Definition emax : Z := 1024.

Definition mul : t -> t -> t := SFmul prec emax.

(** The binary64 value nearest to [num / den], ties to even. *)
Definition round_ratio (neg : bool) (num den : positive) : t :=
  let '(q, e, l) := SFdiv_core_binary prec emax (Zpos num) 0 (Zpos den) 0 in
  binary_round_aux prec emax neg q e l.

(** The binary64 value nearest to [m * 10 ^ e]: what a correctly rounded
    decimal-to-binary conversion (CPython's [_Py_dg_strtod], and the
    compiler on a literal such as [1e-6]) returns. *)
Definition of_decimal (neg : bool) (m : N) (e : Z) : t :=
  match m with
  | N0 => S754_zero neg
  | Npos p =>
      match e with
      | Z0 => round_ratio neg p 1
      | Zpos k => round_ratio neg (p * 10 ^ k) 1
      | Zneg k => round_ratio neg p (10 ^ k)
      end
  end.

(** [float(n)] for a Python int: [PyLong_AsDouble] rounds to nearest and
    reports a result out of range. *)
Definition of_int (z : Z) : option t :=
  match binary_normalize prec emax z 0 false with
  | S754_infinity _ => None
  | f => Some f
  end.

Definition is_finite (f : t) : bool :=
  match f with
  | S754_zero _ | S754_finite _ _ _ => true
  | S754_infinity _ | S754_nan => false
  end.

(** The value of the literal [1e<k>]. *)
Definition e10 (k : Z) : t := of_decimal false 1 k.

Definition one : t := of_decimal false 1 0.

End Float64.

(** ** [float(str)]

    The path of CPython 3 through [PyFloat_FromString]:
    [_PyUnicode_TransformDecimalAndSpaceToASCII], then
    [_Py_string_to_number_with_underscores], then
    [float_from_string_inner], which trims ASCII white space and requires
    [_PyOS_ascii_strtod] to consume everything.  An embedded NUL makes
    every step of the C code fail; here it is one more character that the
    grammar does not accept.  The C code also refuses more than 10^9
    digits, a length no text reaches here. *)

Module PyFloat.

Definition is_digit (c : char) : bool := (48 <=? c) && (c <=? 57).

Definition is_ascii_space (c : char) : bool :=
  ((9 <=? c) && (c <=? 13)) || (c =? 32).

(** Unicode white space becomes a blank, a Unicode digit its ASCII digit,
    and the text is cut after the first other non-ASCII character,
    replaced by a question mark. *)
Fixpoint transform (s : str) : str :=
  match s with
  | [] => []
  | c :: r =>
      if c <? 127 then c :: transform r
      else if Unicode.isspace c then 32 :: transform r
      else match Unicode.todecimal c with
           | Some d => (48 + d) :: transform r
           | None => [63]
           end
  end.

(** An underscore is accepted between two digits only, and dropped. *)
Fixpoint remove_underscores (prev : char) (s : str) : option str :=
  match s with
  | [] => if prev =? 95 then None else Some []
  | c :: r =>
      if c =? 95 then
        if is_digit prev then remove_underscores c r else None
      else if (prev =? 95) && negb (is_digit c) then None
      else option_map (cons c) (remove_underscores c r)
  end.

Definition strip_ascii (s : str) : str :=
  rev (dropwhile is_ascii_space (rev (dropwhile is_ascii_space s))).

Definition read_sign (s : str) : bool * str :=
  match s with
  | c :: r => if c =? 45 then (true, r)
              else if c =? 43 then (false, r) else (false, s)
  | [] => (false, [])
  end.

(** The longest run of digits at the head, as digit values, and the rest. *)
Fixpoint span_digits (s : str) : list N * str :=
  match s with
  | [] => ([], [])
  | c :: r =>
      if is_digit c
      then let '(ds, t) := span_digits r in ((c - 48) :: ds, t)
      else ([], s)
  end.

Definition digits_value (ds : list N) : N :=
  fold_left (fun acc d => 10 * acc + d) ds 0.

(** An exponent needs a digit; without one the [e] is left unread. *)
Definition read_exponent (s : str) : Z * str :=
  match s with
  | c :: r =>
      if (c =? 101) || (c =? 69) then
        let '(eneg, r1) := read_sign r in
        let '(ds, r2) := span_digits r1 in
        match ds with
        | [] => (0%Z, s)
        | _ => let v := Z.of_N (digits_value ds) in
               ((if eneg then - v else v)%Z, r2)
        end
      else (0%Z, s)
  | [] => (0%Z, [])
  end.

(** [_Py_dg_strtod]: sign, digits, point, digits, exponent; at least one
    digit.  The value and the unread rest. *)
Definition dg_strtod (s : str) : option (Float64.t * str) :=
  let '(neg, s1) := read_sign s in
  let '(ip, s2) := span_digits s1 in
  let '(fp, s3) :=
    match s2 with
    | c :: r => if c =? 46 then span_digits r else ([], s2)
    | [] => ([], s2)
    end in
  match ip ++ fp with
  | [] => None
  | ds =>
      let '(e, s4) := read_exponent s3 in
      Some (Float64.of_decimal neg (digits_value ds)
              (e - Z.of_nat (List.length fp)), s4)
  end.

Definition tolower (c : char) : char :=
  if (65 <=? c) && (c <=? 90) then c + 32 else c.

(** [case_insensitive_match]: [t] is lower case; the rest after it. *)
Fixpoint ci_match (t s : str) : option str :=
  match t with
  | [] => Some s
  | a :: t' =>
      match s with
      | c :: s' => if tolower c =? a then ci_match t' s' else None
      | [] => None
      end
  end.

Definition parse_inf_or_nan (s : str) : option (Float64.t * str) :=
  let '(neg, s1) := read_sign s in
  match ci_match (lit "inf") s1 with
  | Some r =>
      match ci_match (lit "inity") r with
      | Some r' => Some (S754_infinity neg, r')
      | None => Some (S754_infinity neg, r)
      end
  | None =>
      match ci_match (lit "nan") s1 with
      | Some r => Some (S754_nan, r)
      | None => None
      end
  end.

Definition ascii_strtod (s : str) : option (Float64.t * str) :=
  match dg_strtod s with
  | Some res => Some res
  | None => parse_inf_or_nan s
  end.

Definition from_string_inner (s : str) : option Float64.t :=
  match ascii_strtod (strip_ascii s) with
  | Some (x, []) => Some x
  | _ => None
  end.

(** [None] stands for [ValueError], the only exception of this path. *)
Definition from_string (s : str) : option Float64.t :=
  match remove_underscores 0 (transform s) with
  | Some t => from_string_inner t
  | None => None
  end.

End PyFloat.

(** ** String methods *)

Module PyStr.

Fixpoint startswith (s p : str) {struct p} : bool :=
  match p, s with
  | [], _ => true
  | a :: p', c :: s' => (a =? c) && startswith s' p'
  | _ :: _, [] => false
  end.

Definition endswith (s suffix : str) : bool :=
  startswith (rev s) (rev suffix).

(** [s.strip()]: white space in the sense of [str.isspace]. *)
Definition strip (s : str) : str :=
  rev (dropwhile Unicode.isspace
         (rev (dropwhile Unicode.isspace s))).

(** [s[:-n]] for [n >= 0]; [s[:-0]] is [s[:0]], the empty string. *)
Definition slice_to_minus (n : nat) (s : str) : str :=
  match n with
  | O => []
  | _ => firstn (List.length s - n) s
  end.

(** [s[-1]], which raises [IndexError] on the empty string. *)
Definition last_char (s : str) : option char := hd_error (rev s).

(** The text before and after the leftmost occurrence of [sep]. *)
Fixpoint find_sub (sep s : str) : option (str * str) :=
  if startswith s sep then Some ([], skipn (List.length sep) s)
  else match s with
       | [] => None
       | c :: r =>
           match find_sub sep r with
           | Some (a, b) => Some (c :: a, b)
           | None => None
           end
       end.

(** [sub in s] *)
Definition contains (sub s : str) : bool :=
  match find_sub sub s with Some _ => true | None => false end.

(** [s.split(sep)] cuts at the occurrences of [sep] found from left to
    right, each search starting after the previous occurrence. *)
Fixpoint split_from (fuel : nat) (sep s : str) : list str :=
  match fuel with
  | O => [s]
  | S n =>
      match find_sub sep s with
      | None => [s]
      | Some (a, b) => a :: split_from n sep b
      end
  end.

End PyStr.

(** ** The module [electronics_value_parser] *)

(** The exceptions the function can raise. *)
Inductive exn := ValueError | IndexError | OverflowError | AttributeError.

(** The values the function is called with: numbers and text. *)
Inductive pyval :=
| PyInt (z : Z)
| PyFloat (f : Float64.t)
| PyStr (s : str).

(** A [dict] in insertion order. *)
Definition dict (V : Type) := list (str * V).

Definition keys {V} (d : dict V) : list str := map fst d.

(** [d[k]] and [k in d] *)
Definition lookup {V} (k : str) (d : dict V) : option V :=
  match find (fun kv => str_eqb (fst kv) k) d with
  | Some kv => Some (snd kv)
  | None => None
  end.

(** [d[k] = v]: an existing key keeps its place, a new one goes last. *)
Fixpoint dict_set {V} (k : str) (v : V) (d : dict V) : dict V :=
  match d with
  | [] => [(k, v)]
  | (k', v') :: r =>
      if str_eqb k' k then (k', v) :: r else (k', v') :: dict_set k v r
  end.

(** [d.update(other)] *)
Definition dict_update {V} (d other : dict V) : dict V :=
  fold_left (fun acc kv => dict_set (fst kv) (snd kv) acc) other d.

Definition prefixes : dict Float64.t :=
  [ (lit "Y", Float64.e10 24);
    (lit "Z", Float64.e10 21);
    (lit "E", Float64.e10 18);
    (lit "P", Float64.e10 15);
    (lit "T", Float64.e10 12);
    (lit "G", Float64.e10 9);
    (lit "M", Float64.e10 6);
    (lit "MEG", Float64.e10 6);
    (lit "Meg", Float64.e10 6);
    (lit "k", Float64.e10 3);
    (lit "K", Float64.e10 3);
    (lit "m", Float64.e10 (-3));
    (lit "u", Float64.e10 (-6));
    ([0x3bc], Float64.e10 (-6));    (* GREEK SMALL LETTER MU *)
    ([0xb5], Float64.e10 (-6));     (* MICRO SIGN *)
    (lit "n", Float64.e10 (-9));
    (lit "p", Float64.e10 (-12));
    (lit "f", Float64.e10 (-15));
    (lit "a", Float64.e10 (-18));
    (lit "z", Float64.e10 (-21));
    (lit "y", Float64.e10 (-24)) ].

(** [infixes = prefixes.copy(); infixes.update({'R': 1})].  The int [1]
    becomes [1.0] when a float is multiplied by it. *)
Definition infixes : dict Float64.t :=
  dict_update prefixes [(lit "R", Float64.one)].

Definition units : dict string :=
  [ (lit "R", "ohm"%string);
    ([0x2126], "ohm"%string);       (* OHM SIGN *)
    ([0x3a9], "ohm"%string);        (* GREEK CAPITAL LETTER OMEGA *)
    (lit "ohm", "ohm"%string);
    (lit "F", "farad"%string);
    (lit "H", "henry"%string);
    (lit "V", "volt"%string);
    (lit "A", "ampere"%string);
    (lit "W", "watt"%string);
    (lit "Hz", "hertz"%string);
    (lit "C", "coulomb"%string);
    (lit "S", "siemen"%string) ].

(** [float(value)] *)
Definition float (value : pyval) : exn + Float64.t :=
  match value with
  | PyFloat f => inr f
  | PyInt z =>
      match Float64.of_int z with
      | Some f => inr f
      | None => inl OverflowError
      end
  | PyStr s =>
      match PyFloat.from_string s with
      | Some f => inr f
      | None => inl ValueError
      end
  end.

(** [s.split(sep)]: an empty separator is refused. *)
Definition split (s sep : str) : exn + list str :=
  match sep with
  | [] => inl ValueError
  | _ => inr (PyStr.split_from (List.length s) sep s)
  end.

(** The loop over a table of unit symbols: the first symbol, in the order
    of the table, that ends [value]; the unit and what is left. *)
Definition strip_unit_in (table : dict string) (value : str)
  : option string * str :=
  match find (fun kv => PyStr.endswith value (fst kv)) table with
  | Some (test_unit, name) =>
      (Some name,
       PyStr.strip (PyStr.slice_to_minus (List.length test_unit) value))
  | None => (None, value)
  end.

Definition strip_unit : str -> option string * str := strip_unit_in units.

(** [float(value) * mul] *)
Definition float_times (value : str) (mul : Float64.t) : exn + Float64.t :=
  match float (PyStr value) with
  | inr f => inr (Float64.mul f mul)
  | inl e => inl e
  end.

(** The first key of the infix table, in its order, that occurs in
    [value]. *)
Definition first_infix (value : str) : option (str * Float64.t) :=
  find (fun kv => PyStr.contains (fst kv) value) infixes.

(** The literal [parts[0] + '.' + parts[1]] of the infix branch. *)
Definition infix_literal (value test_inf : str) : exn + str :=
  match split value test_inf with
  | inl e => inl e
  | inr parts =>
      match nth_error parts 0, nth_error parts 1 with
      | Some p0, Some p1 => inr (p0 ++ lit "." ++ p1)
      | _, _ => inl IndexError
      end
  end.

(** The second half of the handler: prefix at the end, infix, or neither,
    then the conversion of what is left. *)
Definition magnitude (value : str) : exn + Float64.t :=
  match PyStr.last_char value with
  | None => inl IndexError
  | Some c =>
      match lookup [c] prefixes with
      | Some mul => float_times (removelast value) mul
      | None =>
          match first_infix value with
          | Some (test_inf, mul) =>
              match infix_literal value test_inf with
              | inl e => inl e
              | inr literal => float_times literal mul
              end
          | None => float_times value Float64.one
          end
      end
  end.

(** The handler of [ValueError]; [value] is text there, a number has no
    [endswith]. *)
Definition on_value_error (value : pyval)
  : exn + (Float64.t * option string) :=
  match value with
  | PyStr s =>
      let '(unit, rest) := strip_unit s in
      match magnitude rest with
      | inr f => inr (f, unit)
      | inl e => inl e
      end
  | _ => inl AttributeError
  end.

Definition value_parser (value : pyval)
  : exn + (Float64.t * option string) :=
  match float value with
  | inr f => inr (f, None)
  | inl ValueError => on_value_error value
  | inl e => inl e
  end.

(** ** Notions the statements use *)

(** The binary64 value of the decimal [m * 10 ^ e], as the literal
    [m e<e>] of a Python source denotes it. *)
Definition dec (m : N) (e : Z) : Float64.t := Float64.of_decimal false m e.

(** No character of [s] has a decimal value. *)
Definition no_digit (s : str) : bool :=
  forallb (fun c => match Unicode.todecimal c with
                    | None => true
                    | Some _ => false
                    end) s.

Definition all_space (w : str) : bool := forallb Unicode.isspace w.

(** [a] and [b] surround the leftmost occurrence of [sep] in [s]. *)
Definition first_occurrence (sep s a b : str) : Prop :=
  s = a ++ sep ++ b /\
  forall l r, s = l ++ sep ++ r -> (List.length a <= List.length l)%nat.

(** The text of [s] before the leftmost occurrence of [sep], all of [s]
    when there is none. *)
Definition upto (sep s : str) : str :=
  match PyStr.find_sub sep s with
  | Some (a, _) => a
  | None => s
  end.

(** [kv] is the first entry of [table] that satisfies [f]. *)
Definition first_in_table {V} (f : str * V -> bool) (table : dict V)
  (kv : str * V) : Prop :=
  exists before after,
    table = before ++ kv :: after /\ f kv = true /\
    forall x, In x before -> f x = false.

(** The rule of the specification for the unit scan: of the symbols that
    end [value], the longest. *)
Definition longer_match (value : str) (best : option (str * string))
  (kv : str * string) : option (str * string) :=
  if PyStr.endswith value (fst kv) then
    match best with
    | Some b =>
        if (List.length (fst b) <? List.length (fst kv))%nat
        then Some kv else best
    | None => Some kv
    end
  else best.

Definition longest_match (table : dict string) (value : str)
  : option (str * string) :=
  fold_left (longer_match value) table None.

Definition strip_unit_longest (value : str) : option string * str :=
  match longest_match units value with
  | Some (test_unit, name) =>
      (Some name,
       PyStr.strip (PyStr.slice_to_minus (List.length test_unit) value))
  | None => (None, value)
  end.

(** The unit scan as the specification words it: on the trimmed input. *)
Definition strip_unit_trimmed (value : str) : option string * str :=
  strip_unit (PyStr.strip value).

(** The infix literal as the specification words it: the right part is
    everything after the leftmost occurrence. *)
Definition infix_literal_rest (value test_inf : str) : option str :=
  match PyStr.find_sub test_inf value with
  | Some (a, b) => Some (a ++ lit "." ++ b)
  | None => None
  end.

(** ** Decimal literals

    The plain numbers of the specification, as texts: an optional sign,
    digits with an optional point, an optional exponent. *)

Record literal := {
  l_sign : option bool;                        (* [Some true] is a minus *)
  l_int : list N;                              (* digits before the point *)
  l_frac : option (list N);                    (* the point and its digits *)
  l_exp : option (bool * option bool * list N) (* upper case, sign, digits *)
}.

Definition digits_text (ds : list N) : str := map (fun d => 48 + d) ds.

Definition sign_text (sg : option bool) : str :=
  match sg with
  | None => []
  | Some true => lit "-"
  | Some false => lit "+"
  end.

Definition is_minus (sg : option bool) : bool :=
  match sg with Some true => true | _ => false end.

Definition frac_text (fr : option (list N)) : str :=
  match fr with
  | None => []
  | Some fp => lit "." ++ digits_text fp
  end.

Definition exp_text (ex : option (bool * option bool * list N)) : str :=
  match ex with
  | None => []
  | Some (upper, sg, ds) =>
      (if upper then lit "E" else lit "e") ++ sign_text sg ++ digits_text ds
  end.

Definition render (l : literal) : str :=
  sign_text (l_sign l) ++ digits_text (l_int l)
    ++ frac_text (l_frac l) ++ exp_text (l_exp l).

Definition all_digits (ds : list N) : bool := forallb (fun d => d <? 10) ds.

Definition frac_digits (l : literal) : list N :=
  match l_frac l with Some fp => fp | None => [] end.

(** Digits only, at least one in the mantissa and in a given exponent. *)
Definition well_formed (l : literal) : bool :=
  all_digits (l_int l) && all_digits (frac_digits l)
  && negb (Nat.eqb (List.length (l_int l ++ frac_digits l)) 0)
  && match l_exp l with
     | None => true
     | Some (_, _, ds) => all_digits ds && negb (Nat.eqb (List.length ds) 0)
     end.

Definition exp_value (l : literal) : Z :=
  match l_exp l with
  | None => 0
  | Some (_, sg, ds) =>
      let v := Z.of_N (PyFloat.digits_value ds) in
      if is_minus sg then - v else v
  end.

(** The binary64 value nearest to the number the literal denotes. *)
Definition literal_value (l : literal) : Float64.t :=
  Float64.of_decimal (is_minus (l_sign l))
    (PyFloat.digits_value (l_int l ++ frac_digits l))
    (exp_value l - Z.of_nat (List.length (frac_digits l))).

(** The characters that the steps of [float] before the grammar leave
    alone: ASCII, no underscore, no white space. *)
Definition inert (c : char) : bool :=
  (c <? 127) && negb (c =? 95) && negb (PyFloat.is_ascii_space c).

(** [r] does not begin with a digit. *)
Definition no_digit_ahead (r : str) : Prop :=
  PyFloat.span_digits r = ([], r).

(** [r] does not begin with a sign. *)
Definition no_sign_ahead (r : str) : Prop :=
  PyFloat.read_sign r = (false, r).

(** A character that cannot continue a decimal literal. *)
Definition trailing (c : char) : bool :=
  inert c && negb (PyFloat.is_digit c) && negb (c =? 46).

(** The grammar of [float] stops before [t]: no digit, no point and no
    exponent begins it. *)
Definition stops_literal (t : str) : Prop :=
  no_digit_ahead t /\ PyFloat.read_exponent t = (0%Z, t) /\
  match t with c :: _ => (c =? 46) = false | [] => True end.

(** Nothing, or one such character. *)
Definition tail_ok (t : str) : Prop :=
  t = [] \/ exists c, t = [c] /\ trailing c = true.

(** The one-character keys of the prefix table. *)
Definition prefix_chars : list char :=
  flat_map (fun k => match k with [c] => [c] | _ => [] end) (keys prefixes).

(** Whether [float] leaves [c] as one character that cannot continue a
    literal. *)
Definition follows_literal (c : char) : bool :=
  match PyFloat.transform [c] with
  | [c'] => trailing c'
  | _ => false
  end.

(** Whether [k] can end a text made of a digit or a point and then [c]. *)
Definition may_end_after_literal (c : char) (k : str) : bool :=
  match rev k with
  | [] => true
  | [x] => x =? c
  | x :: y :: _ => (x =? c) && (PyFloat.is_digit y || (y =? 46))
  end.

(** ** The test functions of the module

    [assert value_parser(x) == (number, unit)]: the magnitudes are compared
    as numbers, the units as they are. *)

Definition result_eq (r : exn + Float64.t * option string)
  (expected : Float64.t * option string) : bool :=
  match r with
  | inr (f, unit) =>
      SFeqb f (fst expected)
      && match unit, snd expected with
         | None, None => true
         | Some a, Some b => String.eqb a b
         | _, _ => false
         end
  | inl _ => false
  end.

(** A test passes when none of its assertions fails. *)
Definition test_unitless : bool :=
  forallb (fun t => t)
    [ result_eq (value_parser (PyInt 4700)) (dec 4700 0, None);
      result_eq (value_parser (PyFloat (dec 33 (-1)))) (dec 33 (-1), None);
      result_eq (value_parser (PyFloat (dec 47 2))) (dec 47 2, None);
      result_eq (value_parser (PyFloat (dec 983652 (-10))))
        (dec 983652 (-10), None);
      result_eq (value_parser (PyStr (lit "3.3"))) (dec 33 (-1), None);
      result_eq (value_parser (PyStr (lit "3"))) (dec 3 0, None);
      result_eq (value_parser (PyStr (lit "3e3"))) (dec 3 3, None);
      result_eq (value_parser (PyStr (lit "9.83652e-05")))
        (dec 983652 (-10), None) ].

Definition test_trailing_prefix : bool :=
  let ten_micro := Float64.mul (dec 10 0) (dec 1 (-6)) in
  forallb (fun t => t)
    [ result_eq (value_parser (PyStr (lit "3k"))) (dec 3000 0, None);
      result_eq (value_parser (PyStr (lit "3K"))) (dec 3000 0, None);
      result_eq (value_parser (PyStr (lit "3.3K"))) (dec 3300 0, None);
      result_eq (value_parser (PyStr (lit "10u"))) (ten_micro, None);
      result_eq (value_parser (PyStr (lit "10 u"))) (ten_micro, None);
      result_eq (value_parser (PyStr (lit "10" ++ [0x3bc]))) (ten_micro, None);
      result_eq (value_parser (PyStr (lit "10" ++ [0xb5]))) (ten_micro, None) ].

Definition test_infix : bool :=
  forallb (fun t => t)
    [ result_eq (value_parser (PyStr (lit "3k3"))) (dec 3300 0, None);
      result_eq (value_parser (PyStr (lit "2M2"))) (dec 22 5, None);
      result_eq (value_parser (PyStr (lit "4n7")))
        (Float64.mul (dec 47 (-1)) (dec 1 (-9)), None);
      result_eq (value_parser (PyStr (lit "3R3"))) (dec 33 (-1), None) ].

Definition test_units : bool :=
  let times := Float64.mul in
  forallb (fun t => t)
    [ result_eq (value_parser (PyStr (lit "10mA")))
        (dec 10 (-3), Some "ampere"%string);
      result_eq (value_parser (PyStr (lit "10 ohm")))
        (dec 10 0, Some "ohm"%string);
      result_eq (value_parser (PyStr (lit "10   A")))
        (dec 10 0, Some "ampere"%string);
      result_eq (value_parser (PyStr (lit "3kA")))
        (dec 3 3, Some "ampere"%string);
      result_eq (value_parser (PyStr (lit "1 F")))
        (dec 1 0, Some "farad"%string);
      result_eq (value_parser (PyStr (lit "3kohm")))
        (dec 3 3, Some "ohm"%string);
      result_eq (value_parser (PyStr (lit "3 k" ++ [0x3a9])))
        (dec 3 3, Some "ohm"%string);
      result_eq (value_parser (PyStr (lit "103.013 uF")))
        (times (dec 103013 (-3)) (dec 1 (-6)), Some "farad"%string);
      result_eq (value_parser (PyStr (lit "10 " ++ [0x3bc] ++ lit "F")))
        (times (dec 10 0) (dec 1 (-6)), Some "farad"%string);
      result_eq (value_parser (PyStr (lit "100R")))
        (dec 100 0, Some "ohm"%string);
      result_eq (value_parser (PyStr (lit "4.7kV")))
        (times (dec 47 (-1)) (dec 1 3), Some "volt"%string);
      result_eq (value_parser (PyStr (lit "4.7k" ++ [0x2126])))
        (times (dec 47 (-1)) (dec 1 3), Some "ohm"%string);
      result_eq (value_parser (PyStr (lit "4.7k" ++ [0x3a9])))
        (times (dec 47 (-1)) (dec 1 3), Some "ohm"%string);
      result_eq (value_parser (PyStr (lit "245.894 mH")))
        (times (dec 245894 (-3)) (dec 1 (-3)), Some "henry"%string) ].

(** ** Texts around a literal *)

(** The characters of a decimal literal, and those but the upper-case
    [E]. *)
Definition literal_char (c : char) : bool :=
  PyFloat.is_digit c || (c =? 43) || (c =? 45) || (c =? 46) || (c =? 101)
  || (c =? 69).

Definition lower_literal_char (c : char) : bool :=
  PyFloat.is_digit c || (c =? 43) || (c =? 45) || (c =? 46) || (c =? 101).

(** What [transform] makes of a white-space character. *)
Definition blank (c : char) : char := if c <? 127 then c else 32.

(** The grammar of [float] stops at the head of [t], which is not empty. *)
Definition tail_blocks (t : str) : bool :=
  match t with
  | [] => false
  | c :: r =>
      negb (PyFloat.is_digit c) && negb (c =? 46)
      && (if (c =? 101) || (c =? 69)
          then match r with
               | [] => true
               | c2 :: _ => negb (PyFloat.is_digit c2) && negb (c2 =? 43)
                            && negb (c2 =? 45)
               end
          else true)
  end.

Definition no_underscore (t : str) : bool :=
  forallb (fun c => negb (c =? 95)) t.

(** [t] is not empty and its last character does not satisfy [p]. *)
Definition ends_without (p : char -> bool) (t : str) : bool :=
  match rev t with
  | x :: _ => negb (p x)
  | [] => false
  end.

(** A tail, as [transform] leaves it, that makes [float] refuse a literal
    followed by it. *)
Definition refused_tail (t : str) : bool :=
  tail_blocks t && no_underscore t
  && ends_without PyFloat.is_ascii_space t.

(** An ASCII character that is no part of a literal, no underscore and no
    white space; it may be the upper-case [E]. *)
Definition ascii_key_char (c : char) : bool :=
  (c <? 127) && negb (lower_literal_char c) && negb (c =? 95)
  && negb (Unicode.isspace c).

(** A character that [transform] replaces by a question mark, cutting the
    text there. *)
Definition foreign_char (c : char) : bool :=
  negb (c <? 127) && negb (Unicode.isspace c)
  && match Unicode.todecimal c with None => true | Some _ => false end.

Definition key_char (c : char) : bool := ascii_key_char c || foreign_char c.

(** What [transform] leaves of the symbol [k] is a refused tail that
    begins with neither a sign nor a digit. *)
Definition unit_tail (k : str) : bool :=
  refused_tail (PyFloat.transform k)
  && match PyFloat.transform k with
     | c :: _ => negb (c =? 43) && negb (c =? 45)
     | [] => false
     end.

(** The exponent of [l], if any, is written with a lower-case [e]. *)
Definition no_upper_exp (l : literal) : bool :=
  match l_exp l with
  | Some (true, _, _) => false
  | _ => true
  end.

(** Some character of the key [k] cannot occur in a literal written
    without the upper-case [E]. *)
Definition key_outside_literal (k : str) : bool :=
  existsb (fun h => negb (lower_literal_char h)) k.

(** The shape of a key of the infix table: one character that no literal
    has, or a text with two different such characters. *)
Definition infix_key_shape (k : str) : bool :=
  match filter (fun h => negb (lower_literal_char h)) k with
  | [] => false
  | [_] => Nat.eqb (List.length k) 1
  | a :: b :: _ => negb (a =? b)
  end.

(** A character that cannot begin a number: no digit, sign, point or
    underscore, and not the first letter of [inf] or [nan]. *)
Definition start_blocked (c : char) : bool :=
  negb (PyFloat.is_digit c) && negb (c =? 43) && negb (c =? 45)
  && negb (c =? 46) && negb (c =? 95)
  && negb (PyFloat.tolower c =? 105) && negb (PyFloat.tolower c =? 110).


(** White space that [float] trims as well: every white-space character
    but the four ASCII separators 0x1c to 0x1f. *)
Definition float_blank (c : char) : bool :=
  Unicode.isspace c && PyFloat.is_ascii_space (blank c).

(** The key [k] is not empty and does not begin with white space. *)
Definition starts_unspaced (k : str) : bool :=
  match k with
  | c :: _ => negb (Unicode.isspace c)
  | [] => false
  end.

(** No character of [k] is white space. *)
Definition unspaced (k : str) : bool :=
  forallb (fun c => negb (Unicode.isspace c)) k.

(** ** Forms of a value

    The ways in which the tests of the module write a value: a decimal
    literal, alone, followed by a one-character key of the prefix table,
    or with a one-character key of the infix table in the place of its
    point; and after any of them, optionally, white space and a symbol of
    the units table. *)

(** The literal [ip.fp], signed by [sg]. *)
Definition decimal (sg : option bool) (ip fp : list N) : literal :=
  {| l_sign := sg; l_int := ip; l_frac := Some fp; l_exp := None |}.

Inductive number_form :=
| Plain (l : literal)
| Trailing (l : literal) (c : char)
| Infixed (sg : option bool) (ip fp : list N) (c : char).

Record form := {
  f_number : number_form;
  f_unit : option (str * str)        (* white space, unit symbol *)
}.

Definition number_text (n : number_form) : str :=
  match n with
  | Plain l => render l
  | Trailing l c => render l ++ [c]
  | Infixed sg ip fp c =>
      sign_text sg ++ digits_text ip ++ [c] ++ digits_text fp
  end.

Definition form_text (f : form) : str :=
  match f_unit f with
  | None => number_text (f_number f)
  | Some (w, test_unit) => number_text (f_number f) ++ w ++ test_unit
  end.

(** The literal a form writes, the multiplier of its key (one when there
    is a unit symbol and no key) and the unit of its symbol. *)
Definition form_literal (f : form) : literal :=
  match f_number f with
  | Plain l => l
  | Trailing l _ => l
  | Infixed sg ip fp _ => decimal sg ip fp
  end.

Definition form_multiplier (f : form) : option Float64.t :=
  match f_number f with
  | Plain _ =>
      match f_unit f with
      | Some _ => Some Float64.one
      | None => None
      end
  | Trailing _ c => lookup [c] prefixes
  | Infixed _ _ _ c => lookup [c] infixes
  end.

Definition form_unit (f : form) : option string :=
  match f_unit f with
  | Some (_, test_unit) => lookup test_unit units
  | None => None
  end.

Definition is_some {A} (o : option A) : bool :=
  match o with Some _ => true | None => false end.

(** The literals are well formed and the keys are keys of the tables; a
    literal that a unit symbol follows has no upper-case [E], and the key
    of an infix is not [E]. *)
Definition number_ok (n : number_form) (with_unit : bool) : bool :=
  match n with
  | Plain l => well_formed l && (negb with_unit || no_upper_exp l)
  | Trailing l c => well_formed l && is_some (lookup [c] prefixes)
  | Infixed sg ip fp c =>
      all_digits ip && negb (Nat.eqb (List.length ip) 0)
      && all_digits fp && negb (Nat.eqb (List.length fp) 0)
      && is_some (lookup [c] infixes) && negb (c =? 69)
  end.

Definition form_ok (f : form) : bool :=
  match f_unit f with
  | None => number_ok (f_number f) false
  | Some (w, test_unit) =>
      number_ok (f_number f) true && all_space w
      && is_some (lookup test_unit units)
  end.

(** The double nearest to the literal, times the multiplier. *)
Definition form_reading (f : form) : Float64.t :=
  match form_multiplier f with
  | Some m => Float64.mul (literal_value (form_literal f)) m
  | None => literal_value (form_literal f)
  end.

(** * Properties *)

(** ** Prefixes, suffixes and occurrences *)

Section StringFacts.

Lemma str_eqb_eq (a b : str) : str_eqb a b = true <-> a = b.
Proof.
  unfold str_eqb. destruct (list_eq_dec N.eq_dec a b); split;
    congruence.
Qed.

Lemma startswith_app (p r : str) : PyStr.startswith (p ++ r) p = true.
Proof.
  induction p as [|a p IH]; simpl; [reflexivity|].
  now rewrite N.eqb_refl, IH.
Qed.

Lemma startswith_inv (p s : str) :
  PyStr.startswith s p = true -> s = p ++ skipn (List.length p) s.
Proof.
  revert s. induction p as [|a p IH]; intros s H; simpl in *.
  - reflexivity.
  - destruct s as [|c s]; [discriminate|].
    apply andb_true_iff in H as [Hc Hs].
    apply N.eqb_eq in Hc. subst c. simpl. f_equal. now apply IH.
Qed.

Lemma startswith_iff (p s : str) :
  PyStr.startswith s p = true <-> exists r, s = p ++ r.
Proof.
  split.
  - intros H. eexists. now apply startswith_inv.
  - intros [r ->]. apply startswith_app.
Qed.

Lemma endswith_iff (s k : str) :
  PyStr.endswith s k = true <-> exists p, s = p ++ k.
Proof.
  unfold PyStr.endswith. rewrite startswith_iff. split.
  - intros [r Hr]. exists (rev r).
    rewrite <- (rev_involutive s), Hr, rev_app_distr.
    now rewrite rev_involutive.
  - intros [p ->]. exists (rev p). apply rev_app_distr.
Qed.

Lemma endswith_app (s k : str) : PyStr.endswith (s ++ k) k = true.
Proof. apply endswith_iff. now exists s. Qed.

(** Of two suffixes of one string, the shorter ends the longer. *)
Lemma suffixes_nest (s a b : str) :
  PyStr.endswith s a = true -> PyStr.endswith s b = true ->
  (List.length a <= List.length b)%nat ->
  PyStr.endswith b a = true.
Proof.
  intros Ha Hb Hlen.
  apply endswith_iff in Ha as [p1 H1].
  apply endswith_iff in Hb as [p2 H2].
  apply endswith_iff. rewrite H1 in H2.
  apply app_eq_app in H2 as [l [[_ E] | [_ E]]].
  - now exists l.
  - exists []. simpl.
    assert (L := f_equal (@List.length _) E). rewrite length_app in L.
    destruct l; [now simpl in E | simpl in L; lia].
Qed.

Lemma slice_to_minus_app (s k : str) :
  k <> [] -> PyStr.slice_to_minus (List.length k) (s ++ k) = s.
Proof.
  intros Hk. unfold PyStr.slice_to_minus.
  destruct (List.length k) eqn:E.
  - destruct k; [congruence | discriminate].
  - rewrite <- E, length_app, Nat.add_sub, firstn_app, Nat.sub_diag.
    rewrite firstn_all. simpl. apply app_nil_r.
Qed.

Lemma find_sub_app (sep s a b : str) :
  PyStr.find_sub sep s = Some (a, b) -> s = a ++ sep ++ b.
Proof.
  revert a b. induction s as [|c s IH]; intros a b; simpl.
  - destruct (PyStr.startswith [] sep) eqn:E; [|discriminate].
    intros [= <- <-]. apply startswith_inv in E.
    now rewrite skipn_nil in *.
  - destruct (PyStr.startswith (c :: s) sep) eqn:E.
    + intros [= <- <-]. now apply startswith_inv in E.
    + destruct (PyStr.find_sub sep s) as [[a' b']|]; [|discriminate].
      intros [= <- <-]. simpl. f_equal. now apply IH.
Qed.

Lemma find_sub_leftmost (sep s a b l r : str) :
  PyStr.find_sub sep s = Some (a, b) -> s = l ++ sep ++ r ->
  (List.length a <= List.length l)%nat.
Proof.
  revert a b l. induction s as [|c s IH]; intros a b l; simpl.
  - destruct (PyStr.startswith [] sep); [|discriminate].
    intros [= <- <-] _. simpl. lia.
  - destruct (PyStr.startswith (c :: s) sep) eqn:E.
    + intros [= <- <-] _. simpl. lia.
    + destruct (PyStr.find_sub sep s) as [[a' b']|] eqn:F; [|discriminate].
      intros [= <- <-] Hs. destruct l as [|c' l].
      * simpl in Hs. rewrite Hs, startswith_app in E. discriminate.
      * simpl in Hs. injection Hs as _ Hs. simpl.
        apply le_n_S. eapply IH; eauto.
Qed.

Lemma find_sub_complete (sep s l r : str) :
  s = l ++ sep ++ r -> PyStr.find_sub sep s <> None.
Proof.
  revert s. induction l as [|c l IH]; intros s ->; simpl.
  - destruct (sep ++ r) eqn:E; simpl;
      rewrite <- E, startswith_app; discriminate.
  - destruct (PyStr.startswith (c :: l ++ sep ++ r) sep); [discriminate|].
    specialize (IH _ eq_refl).
    destruct (PyStr.find_sub sep (l ++ sep ++ r)) as [[? ?]|];
      [discriminate | congruence].
Qed.

Lemma find_sub_first_occurrence (sep s a b : str) :
  PyStr.find_sub sep s = Some (a, b) -> first_occurrence sep s a b.
Proof.
  intros H. split; [now apply find_sub_app|].
  intros l r. now apply find_sub_leftmost with (b := b) (r := r).
Qed.

Lemma contains_iff (sub s : str) :
  PyStr.contains sub s = true <-> exists l r, s = l ++ sub ++ r.
Proof.
  unfold PyStr.contains. split.
  - destruct (PyStr.find_sub sub s) as [[a b]|] eqn:E; [|discriminate].
    intros _. exists a, b. now apply find_sub_app.
  - intros (l & r & H). apply find_sub_complete in H.
    now destruct (PyStr.find_sub sub s).
Qed.

Lemma upto_cases (sep s : str) :
  PyStr.contains sep s = false /\ upto sep s = s \/
  exists rest, first_occurrence sep s (upto sep s) rest.
Proof.
  unfold PyStr.contains, upto.
  destruct (PyStr.find_sub sep s) as [[a b]|] eqn:E; [right | now left].
  exists b. now apply find_sub_first_occurrence.
Qed.

End StringFacts.

(** ** The unit scan *)

Section UnitScan.

Lemma units_keys_nonempty (kv : str * string) :
  In kv units -> fst kv <> [].
Proof.
  unfold units. simpl. intros H.
  repeat (destruct H as [<- | H]; [discriminate|]). destruct H.
Qed.

(** Checked on the 144 pairs of entries. *)
Lemma units_not_nested (x y : str * string) :
  In x units -> In y units ->
  PyStr.endswith (fst y) (fst x) = true -> x = y.
Proof.
  unfold units. simpl. intros Hx Hy.
  repeat (destruct Hx as [<- | Hx]);
    try (destruct Hx);
    repeat (destruct Hy as [<- | Hy]);
    try (destruct Hy);
    intros E; try reflexivity; vm_compute in E; discriminate.
Qed.

Lemma units_match_unique (s : str) (x y : str * string) :
  In x units -> In y units ->
  PyStr.endswith s (fst x) = true -> PyStr.endswith s (fst y) = true ->
  x = y.
Proof.
  intros Hx Hy Ex Ey.
  destruct (Nat.le_ge_cases (List.length (fst x)) (List.length (fst y))).
  - apply units_not_nested; eauto using suffixes_nest.
  - symmetry. apply units_not_nested; eauto using suffixes_nest.
Qed.

(** A search that at most one entry can satisfy does not depend on the
    order of the entries. *)
Lemma find_unique_perm {A} (f : A -> bool) (l l' : list A) :
  (forall x y, In x l -> In y l -> f x = true -> f y = true -> x = y) ->
  Permutation l' l -> find f l' = find f l.
Proof.
  intros U P.
  destruct (find f l) as [x|] eqn:E.
  - apply find_some in E as [Hx Fx].
    destruct (find f l') as [y|] eqn:E'.
    + apply find_some in E' as [Hy Fy]. f_equal.
      apply U; eauto using Permutation_in.
    + apply Permutation_sym in P.
      now rewrite (find_none f l' E' x (Permutation_in x P Hx)) in Fx.
  - destruct (find f l') as [y|] eqn:E'; [|reflexivity].
    apply find_some in E' as [Hy Fy].
    now rewrite (find_none f l E y (Permutation_in y P Hy)) in Fy.
Qed.

Lemma find_first_in_table {V} (f : str * V -> bool) (table : dict V) kv :
  find f table = Some kv -> first_in_table f table kv.
Proof.
  induction table as [|x t IH]; simpl; [discriminate|].
  destruct (f x) eqn:Fx.
  - intros [= <-]. exists [], t. repeat split; auto. intros ? [].
  - intros H. destruct (IH H) as (b & a & -> & Fk & Hb).
    exists (x :: b), a. repeat split; auto.
    intros y [<- | Hy]; auto.
Qed.

Lemma scan_finds (s : str) (kv : str * string) :
  In kv units -> PyStr.endswith s (fst kv) = true ->
  find (fun x => PyStr.endswith s (fst x)) units = Some kv.
Proof.
  intros Hk Ek.
  destruct (find (fun x => PyStr.endswith s (fst x)) units) as [y|] eqn:E.
  - apply find_some in E as [Hy Ey]. f_equal.
    now apply (units_match_unique s).
  - now rewrite (find_none _ _ E kv Hk) in Ek.
Qed.

(** The scan on a text that ends with a symbol of the table. *)
Lemma strip_unit_app (s test_unit : str) (name : string) :
  In (test_unit, name) units ->
  strip_unit (s ++ test_unit) = (Some name, PyStr.strip s).
Proof.
  intros Hk. unfold strip_unit, strip_unit_in.
  rewrite (scan_finds (s ++ test_unit) (test_unit, name) Hk
             (endswith_app s test_unit)).
  rewrite slice_to_minus_app; [reflexivity|].
  apply (units_keys_nonempty _ Hk).
Qed.

Lemma longer_match_keeps (value : str) (l : dict string) x :
  (forall y, In y l -> PyStr.endswith value (fst y) = true -> y = x) ->
  fold_left (longer_match value) l (Some x) = Some x.
Proof.
  induction l as [|y l IH]; intros U; simpl; [reflexivity|].
  unfold longer_match at 2.
  destruct (PyStr.endswith value (fst y)) eqn:E.
  - rewrite (U y (or_introl eq_refl) E), Nat.ltb_irrefl.
    apply IH. intros; apply U; simpl; auto.
  - apply IH. intros; apply U; simpl; auto.
Qed.

Lemma longest_match_is_find (value : str) (l : dict string) :
  (forall x y, In x l -> In y l ->
     PyStr.endswith value (fst x) = true ->
     PyStr.endswith value (fst y) = true -> x = y) ->
  longest_match l value = find (fun x => PyStr.endswith value (fst x)) l.
Proof.
  unfold longest_match.
  induction l as [|x l IH]; intros U; simpl; [reflexivity|].
  unfold longer_match at 2.
  destruct (PyStr.endswith value (fst x)) eqn:E.
  - apply longer_match_keeps. intros y Hy Ey.
    symmetry. apply U; simpl; auto.
  - apply IH. intros; apply U; simpl; auto.
Qed.

Lemma strip_unit_is_longest (value : str) :
  strip_unit value = strip_unit_longest value.
Proof.
  unfold strip_unit, strip_unit_in, strip_unit_longest.
  rewrite longest_match_is_find; [reflexivity|].
  intros x y Hx Hy. now apply units_match_unique.
Qed.

Lemma strip_unit_in_perm (table : dict string) (value : str) :
  Permutation table units -> strip_unit_in table value = strip_unit value.
Proof.
  intros P. unfold strip_unit, strip_unit_in.
  rewrite (find_unique_perm _ units table); [reflexivity| |assumption].
  intros x y Hx Hy. now apply units_match_unique.
Qed.

End UnitScan.

(** ** Trimming *)

Section Trimming.

Variable p : char -> bool.

Lemma dropwhile_all (w s : str) :
  forallb p w = true -> dropwhile p (w ++ s) = dropwhile p s.
Proof.
  induction w as [|c w IH]; simpl; [reflexivity|].
  intros H. apply andb_true_iff in H as [-> H]. now apply IH.
Qed.

Lemma dropwhile_app (b x : str) :
  dropwhile p b <> [] ->
  dropwhile p (b ++ x) = dropwhile p b ++ x.
Proof.
  induction b as [|c b IH]; simpl; [congruence|].
  destruct (p c); auto.
Qed.

Lemma dropwhile_nil (b : str) :
  dropwhile p b = [] -> forallb p b = true.
Proof.
  induction b as [|c b IH]; simpl; [reflexivity|].
  destruct (p c); [auto | discriminate].
Qed.

Lemma dropwhile_incl (s : str) c :
  In c (dropwhile p s) -> In c s.
Proof.
  induction s as [|d s IH]; simpl; [tauto|].
  destruct (p d); simpl; auto.
Qed.

Lemma forallb_rev (w : str) : forallb p w = true -> forallb p (rev w) = true.
Proof.
  rewrite !forallb_forall. intros H c Hc. apply H. now apply in_rev.
Qed.

(** White space around [b] does not change what trimming leaves. *)
Lemma trim_surrounded (w1 b w2 : str) :
  forallb p w1 = true -> forallb p w2 = true ->
  rev (dropwhile p (rev (dropwhile p (w1 ++ b ++ w2)))) =
  rev (dropwhile p (rev (dropwhile p b))).
Proof.
  intros H1 H2. rewrite dropwhile_all by assumption.
  destruct (dropwhile p b) as [|c t] eqn:E.
  - apply dropwhile_nil in E.
    replace (b ++ w2) with ((b ++ w2) ++ []) by apply app_nil_r.
    rewrite dropwhile_all; [reflexivity|].
    rewrite forallb_app. now rewrite E, H2.
  - rewrite dropwhile_app by congruence.
    rewrite E, rev_app_distr, dropwhile_all; auto using forallb_rev.
Qed.

End Trimming.

Lemma strip_surrounded (w1 b w2 : str) :
  all_space w1 = true -> all_space w2 = true ->
  PyStr.strip (w1 ++ b ++ w2) = PyStr.strip b.
Proof. apply trim_surrounded. Qed.

Lemma strip_incl (s : str) c : In c (PyStr.strip s) -> In c s.
Proof.
  unfold PyStr.strip. intros H.
  apply in_rev, dropwhile_incl, in_rev in H.
  now apply dropwhile_incl in H.
Qed.

(** ** Splitting *)

Section Splitting.

Variable sep : str.
Hypothesis sep_nonempty : sep <> [].

Lemma find_sub_shorter (s a b : str) :
  PyStr.find_sub sep s = Some (a, b) ->
  (List.length b < List.length s)%nat.
Proof.
  intros H. apply find_sub_app in H. subst s.
  rewrite !length_app. destruct sep; [congruence | simpl; lia].
Qed.

Lemma find_sub_nil : PyStr.find_sub sep [] = None.
Proof. destruct sep; [congruence | reflexivity]. Qed.

Lemma split_from_fuel_any (n m : nat) (s : str) :
  (List.length s <= n)%nat -> (List.length s <= m)%nat ->
  PyStr.split_from n sep s = PyStr.split_from m sep s.
Proof.
  revert m s. induction n as [|n IH]; intros [|m] s Hn Hm;
    try reflexivity.
  - destruct s; [|simpl in Hn; lia].
    cbn [PyStr.split_from]. now rewrite find_sub_nil.
  - destruct s; [|simpl in Hm; lia].
    cbn [PyStr.split_from]. now rewrite find_sub_nil.
  - cbn [PyStr.split_from].
    destruct (PyStr.find_sub sep s) as [[a b]|] eqn:E; [|reflexivity].
    apply find_sub_shorter in E. f_equal. apply IH; lia.
Qed.

(** The fuel given to [split_from] by [split] is enough: more of it
    changes nothing. *)
Lemma split_from_fuel (n : nat) (s : str) :
  (List.length s <= n)%nat ->
  PyStr.split_from n sep s = PyStr.split_from (List.length s) sep s.
Proof. intros Hn. now apply split_from_fuel_any. Qed.

Lemma split_from_head (n : nat) (s : str) :
  (List.length s <= n)%nat ->
  exists rest, PyStr.split_from n sep s = upto sep s :: rest.
Proof.
  intros Hn. unfold upto. destruct n as [|n].
  - destruct s; [|simpl in Hn; lia]. rewrite find_sub_nil. now exists [].
  - cbn [PyStr.split_from].
    destruct (PyStr.find_sub sep s) as [[a b]|]; eauto.
Qed.

Lemma split_eq (s : str) :
  split s sep = inr (PyStr.split_from (List.length s) sep s).
Proof. unfold split. destruct sep; [congruence | reflexivity]. Qed.

Lemma infix_literal_eq (value a b : str) :
  PyStr.find_sub sep value = Some (a, b) ->
  infix_literal value sep = inr (a ++ lit "." ++ upto sep b).
Proof.
  intros H. unfold infix_literal. rewrite split_eq.
  pose proof (find_sub_shorter _ _ _ H) as L.
  destruct (List.length value) as [|n] eqn:En; [lia|].
  cbn [PyStr.split_from]. rewrite H.
  destruct (split_from_head n b) as [rest ->]; [lia|]. reflexivity.
Qed.

Lemma upto_incl (s : str) c : In c (upto sep s) -> In c s.
Proof.
  unfold upto. destruct (PyStr.find_sub sep s) as [[a b]|] eqn:E; auto.
  apply find_sub_app in E. subst s. intros H. apply in_or_app. auto.
Qed.

End Splitting.

(** ** [float] on a text without digits *)

Section NoDigit.

Lemma digit_has_decimal (c : char) :
  PyFloat.is_digit c = true -> Unicode.todecimal c <> None.
Proof.
  unfold PyFloat.is_digit, Unicode.todecimal, Unicode.decimal_zeros.
  intros H. apply andb_true_iff in H as [H1 H2].
  apply N.leb_le in H1. apply N.leb_le in H2. cbn [find].
  replace ((48 <=? c) && (c <? 48 + 10)) with true; [discriminate|].
  symmetry. apply andb_true_iff. split;
    [apply N.leb_le | apply N.ltb_lt]; lia.
Qed.

Lemma no_digit_in (s : str) c :
  no_digit s = true -> In c s -> Unicode.todecimal c = None.
Proof.
  unfold no_digit. rewrite forallb_forall. intros H Hc.
  specialize (H c Hc). now destruct (Unicode.todecimal c).
Qed.

Lemma no_digit_incl (s t : str) :
  (forall c, In c t -> In c s) -> no_digit s = true -> no_digit t = true.
Proof.
  unfold no_digit. rewrite !forallb_forall. auto.
Qed.

Lemma no_digit_app (s t : str) :
  no_digit s = true -> no_digit t = true -> no_digit (s ++ t) = true.
Proof. unfold no_digit. rewrite forallb_app. now intros -> ->. Qed.

Lemma transform_no_digit (s : str) c :
  no_digit s = true -> In c (PyFloat.transform s) ->
  PyFloat.is_digit c = false.
Proof.
  induction s as [|d s IH]; simpl; [tauto|].
  intros H. apply andb_true_iff in H as [Hd Hs].
  destruct (d <? 127).
  - intros [<- | Hc]; auto.
    destruct (PyFloat.is_digit d) eqn:E; [|reflexivity].
    apply digit_has_decimal in E.
    now destruct (Unicode.todecimal d).
  - destruct (Unicode.isspace d).
    + intros [<- | Hc]; auto.
    + destruct (Unicode.todecimal d); [discriminate|].
      intros [<- | []]. reflexivity.
Qed.

Lemma remove_underscores_incl (t : str) :
  forall prev u c,
    PyFloat.remove_underscores prev t = Some u -> In c u -> In c t.
Proof.
  induction t as [|d t IH]; intros prev u c; simpl.
  - destruct (prev =? 95); [discriminate|]. now intros [= <-].
  - destruct (d =? 95).
    + destruct (PyFloat.is_digit prev); [|discriminate]. eauto.
    + destruct ((prev =? 95) && negb (PyFloat.is_digit d));
        [discriminate|].
      destruct (PyFloat.remove_underscores d t) as [u'|] eqn:E;
        [|discriminate].
      intros [= <-] [<- | Hc]; eauto.
Qed.

Lemma strip_ascii_incl (s : str) c :
  In c (PyFloat.strip_ascii s) -> In c s.
Proof.
  unfold PyFloat.strip_ascii. intros H.
  apply in_rev, dropwhile_incl, in_rev in H.
  now apply dropwhile_incl in H.
Qed.

Lemma read_sign_incl (s r : str) neg c :
  PyFloat.read_sign s = (neg, r) -> In c r -> In c s.
Proof.
  destruct s as [|d s]; simpl.
  - now intros [= _ <-].
  - destruct (d =? 45); [|destruct (d =? 43)];
      intros [= _ <-]; simpl; auto.
Qed.

Lemma span_digits_none (s : str) :
  (forall c, In c s -> PyFloat.is_digit c = false) ->
  PyFloat.span_digits s = ([], s).
Proof.
  destruct s as [|d s]; simpl; [reflexivity|].
  intros H. now rewrite (H d (or_introl eq_refl)).
Qed.

Lemma dg_strtod_none (s : str) :
  (forall c, In c s -> PyFloat.is_digit c = false) ->
  PyFloat.dg_strtod s = None.
Proof.
  intros H. unfold PyFloat.dg_strtod.
  destruct (PyFloat.read_sign s) as [neg s1] eqn:Es.
  assert (H1 : forall c, In c s1 -> PyFloat.is_digit c = false)
    by eauto using read_sign_incl.
  rewrite (span_digits_none s1 H1).
  destruct s1 as [|d s1]; [reflexivity|].
  destruct (d =? 46); [|reflexivity].
  rewrite span_digits_none; [reflexivity|].
  intros c Hc. apply H1. now right.
Qed.

Lemma parse_inf_or_nan_not_finite (s r : str) x :
  PyFloat.parse_inf_or_nan s = Some (x, r) -> Float64.is_finite x = false.
Proof.
  unfold PyFloat.parse_inf_or_nan.
  destruct (PyFloat.read_sign s) as [neg s1].
  destruct (PyFloat.ci_match (lit "inf") s1) as [r1|].
  - destruct (PyFloat.ci_match (lit "inity") r1); now intros [= <- _].
  - destruct (PyFloat.ci_match (lit "nan") s1); [|discriminate].
    now intros [= <- _].
Qed.

(** A text without digits converts to an infinity or a NaN, if at all. *)
Lemma from_string_no_digit (s : str) f :
  no_digit s = true -> PyFloat.from_string s = Some f ->
  Float64.is_finite f = false.
Proof.
  intros Hs. unfold PyFloat.from_string, PyFloat.from_string_inner.
  destruct (PyFloat.remove_underscores 0 (PyFloat.transform s))
    as [t|] eqn:Et; [|discriminate].
  unfold PyFloat.ascii_strtod. rewrite dg_strtod_none.
  - destruct (PyFloat.parse_inf_or_nan (PyFloat.strip_ascii t))
      as [[x r]|] eqn:Ep; [|discriminate].
    destruct r; [|discriminate]. intros [= <-].
    eapply parse_inf_or_nan_not_finite; eauto.
  - intros c Hc. apply strip_ascii_incl in Hc.
    eapply transform_no_digit; eauto using remove_underscores_incl.
Qed.

Lemma mul_not_finite (f m : Float64.t) :
  Float64.is_finite f = false ->
  Float64.is_finite (Float64.mul f m) = false.
Proof. destruct f, m; simpl; congruence. Qed.

Lemma float_times_no_digit (s : str) (m : Float64.t) :
  no_digit s = true ->
  float_times s m = inl ValueError \/
  exists f, float_times s m = inr f /\ Float64.is_finite f = false.
Proof.
  intros Hs. unfold float_times, float.
  destruct (PyFloat.from_string s) as [f|] eqn:E; [right|now left].
  eexists. split; [reflexivity|].
  eauto using mul_not_finite, from_string_no_digit.
Qed.

End NoDigit.

(** ** The magnitude stage *)

Section Magnitude.

Lemma last_char_some (s : str) :
  s <> [] -> exists c, PyStr.last_char s = Some c.
Proof.
  unfold PyStr.last_char. intros H.
  destruct (rev s) as [|c r] eqn:E; [|now exists c].
  apply (f_equal (@rev _)) in E. rewrite rev_involutive in E.
  now subst s.
Qed.

Lemma removelast_incl (s : str) c : In c (removelast s) -> In c s.
Proof.
  induction s as [|d s IH]; simpl; [tauto|].
  destruct s; [tauto|]. intros [<- | H]; auto.
Qed.

Lemma infixes_keys_nonempty (kv : str * Float64.t) :
  In kv infixes -> fst kv <> [].
Proof.
  vm_compute. intros H.
  repeat (destruct H as [<- | H]; [discriminate|]). destruct H.
Qed.

Lemma strip_unit_incl (s : str) c : In c (snd (strip_unit s)) -> In c s.
Proof.
  unfold strip_unit, strip_unit_in.
  destruct (find _ units) as [[k name]|]; simpl; [|auto].
  intros H. apply strip_incl in H. unfold PyStr.slice_to_minus in H.
  destruct (List.length k); [destruct H|].
  rewrite <- (firstn_skipn (List.length s - S n) s).
  apply in_or_app. now left.
Qed.

(** What the infix branch computes, in terms of occurrences. *)
Lemma magnitude_infix (value : str) c test_inf mul :
  PyStr.last_char value = Some c -> lookup [c] prefixes = None ->
  first_infix value = Some (test_inf, mul) ->
  exists a b,
    PyStr.find_sub test_inf value = Some (a, b) /\
    magnitude value = float_times (a ++ lit "." ++ upto test_inf b) mul.
Proof.
  intros Hc Hp Hi. unfold magnitude. rewrite Hc, Hp, Hi.
  apply find_some in Hi as [Hin Hk]. simpl in Hk.
  unfold PyStr.contains in Hk.
  destruct (PyStr.find_sub test_inf value) as [[a b]|] eqn:E;
    [|discriminate].
  exists a, b. split; [reflexivity|].
  rewrite (infix_literal_eq test_inf) with (a := a) (b := b); auto.
  apply (infixes_keys_nonempty _ Hin).
Qed.

Lemma magnitude_no_digit (value : str) :
  no_digit value = true -> value <> [] ->
  magnitude value = inl ValueError \/
  exists f, magnitude value = inr f /\ Float64.is_finite f = false.
Proof.
  intros Hd Hne. destruct (last_char_some value Hne) as [c Hc].
  destruct (lookup [c] prefixes) as [mul|] eqn:Hp.
  - unfold magnitude. rewrite Hc, Hp.
    apply float_times_no_digit.
    apply (no_digit_incl value); [apply removelast_incl | exact Hd].
  - destruct (first_infix value) as [[k mul]|] eqn:Hi.
    + destruct (magnitude_infix value c k mul Hc Hp Hi)
        as (a & b & Hf & ->).
      apply float_times_no_digit. apply find_sub_app in Hf.
      assert (Ha : no_digit a = true).
      { eapply no_digit_incl; [|exact Hd]. intros x Hx. subst value.
        apply in_or_app. now left. }
      assert (Hb : no_digit (upto k b) = true).
      { eapply no_digit_incl; [|exact Hd]. intros x Hx.
        apply upto_incl in Hx. subst value.
        apply in_or_app. right. apply in_or_app. now right. }
      now repeat apply no_digit_app.
    + unfold magnitude. rewrite Hc, Hp, Hi.
      now apply float_times_no_digit.
Qed.

End Magnitude.

(** ** [float] on a decimal literal *)

Section Literals.

Ltac bool_cases :=
  repeat match goal with
    | |- context [?a <? ?b] => destruct (N.ltb_spec a b)
    | |- context [?a <=? ?b] => destruct (N.leb_spec a b)
    | |- context [?a =? ?b] => destruct (N.eqb_spec a b)
    end;
  cbn [negb andb orb]; try reflexivity; try lia.

Lemma transform_inert (s : str) :
  forallb inert s = true -> PyFloat.transform s = s.
Proof.
  induction s as [|c s IH]; simpl; [reflexivity|].
  intros H. apply andb_true_iff in H as [Hc Hs].
  unfold inert in Hc. destruct (c <? 127); [|discriminate].
  now rewrite IH.
Qed.

Lemma transform_app_inert (s t : str) :
  forallb inert s = true ->
  PyFloat.transform (s ++ t) = s ++ PyFloat.transform t.
Proof.
  induction s as [|c s IH]; simpl; [reflexivity|].
  intros H. apply andb_true_iff in H as [Hc Hs].
  unfold inert in Hc. destruct (c <? 127); [|discriminate].
  now rewrite IH.
Qed.

Lemma remove_underscores_inert (s : str) (prev : char) :
  forallb inert s = true -> prev <> 95 ->
  PyFloat.remove_underscores prev s = Some s.
Proof.
  revert prev. induction s as [|c s IH]; intros prev H Hp; simpl.
  - now destruct (N.eqb_spec prev 95).
  - simpl in H. apply andb_true_iff in H as [Hc Hs]. unfold inert in Hc.
    destruct (N.eqb_spec c 95) as [->|Hc95]; [discriminate|].
    destruct (N.eqb_spec prev 95); [congruence|]. simpl.
    now rewrite IH.
Qed.

Lemma dropwhile_none (q : char -> bool) (s : str) :
  forallb (fun c => negb (q c)) s = true -> dropwhile q s = s.
Proof.
  destruct s as [|c s]; simpl; [reflexivity|].
  intros H. apply andb_true_iff in H as [Hc _]. now destruct (q c).
Qed.

Lemma strip_ascii_inert (s : str) :
  forallb inert s = true -> PyFloat.strip_ascii s = s.
Proof.
  intros H. unfold PyFloat.strip_ascii.
  assert (Q : forallb (fun c => negb (PyFloat.is_ascii_space c)) s = true).
  { rewrite forallb_forall in *. intros c Hc. specialize (H c Hc).
    unfold inert in H. now apply andb_true_iff in H as [_ ->]. }
  rewrite (dropwhile_none _ s Q), dropwhile_none.
  - apply rev_involutive.
  - now apply forallb_rev.
Qed.

Lemma digit_char (d : N) :
  d < 10 ->
  PyFloat.is_digit (48 + d) = true /\ inert (48 + d) = true /\
  48 + d - 48 = d /\ 48 + d <> 45 /\ 48 + d <> 43 /\ 48 + d <> 46.
Proof.
  intros H. unfold inert, PyFloat.is_digit, PyFloat.is_ascii_space.
  split; [|split; [|split; [|split; [|split]]]]; bool_cases.
Qed.

Lemma digits_text_inert (ds : list N) :
  all_digits ds = true -> forallb inert (digits_text ds) = true.
Proof.
  induction ds as [|d ds IH]; [reflexivity|].
  unfold all_digits, digits_text. cbn [forallb map].
  intros H. apply andb_true_iff in H as [Hd Hs]. apply N.ltb_lt in Hd.
  destruct (digit_char d Hd) as (_ & -> & _). now apply IH.
Qed.

Lemma render_inert (l : literal) :
  well_formed l = true -> forallb inert (render l) = true.
Proof.
  unfold well_formed, render, frac_digits. intros H.
  apply andb_true_iff in H as [H He].
  apply andb_true_iff in H as [H _].
  apply andb_true_iff in H as [Hi Hf].
  rewrite !forallb_app. repeat (apply andb_true_iff; split).
  - now destruct (l_sign l) as [[|]|].
  - now apply digits_text_inert.
  - destruct (l_frac l); [|reflexivity]. simpl.
    now apply digits_text_inert.
  - destruct (l_exp l) as [[[up sg] ds]|]; [|reflexivity].
    apply andb_true_iff in He as [He _].
    unfold exp_text. rewrite !forallb_app.
    repeat (apply andb_true_iff; split).
    + now destruct up.
    + now destruct sg as [[|]|].
    + now apply digits_text_inert.
Qed.

Lemma span_digits_text (ds : list N) (r : str) :
  all_digits ds = true -> no_digit_ahead r ->
  PyFloat.span_digits (digits_text ds ++ r) = (ds, r).
Proof.
  intros H Hr. induction ds as [|d ds IH]; [exact Hr|].
  unfold all_digits in H. cbn [forallb] in H.
  apply andb_true_iff in H as [Hd Hs]. apply N.ltb_lt in Hd.
  unfold digits_text. cbn [map app PyFloat.span_digits].
  destruct (digit_char d Hd) as (-> & _ & -> & _).
  fold (digits_text ds). now rewrite (IH Hs).
Qed.

Lemma read_sign_text (sg : option bool) (r : str) :
  no_sign_ahead r ->
  PyFloat.read_sign (sign_text sg ++ r) = (is_minus sg, r).
Proof. intros Hr. now destruct sg as [[|]|]. Qed.

Lemma no_sign_before_digits (ds : list N) (r : str) :
  all_digits ds = true -> ds <> [] -> no_sign_ahead (digits_text ds ++ r).
Proof.
  destruct ds as [|d ds]; [congruence|].
  unfold all_digits. cbn [forallb]. intros H _.
  apply andb_true_iff in H as [Hd _]. apply N.ltb_lt in Hd.
  destruct (digit_char d Hd) as (_ & _ & _ & H45 & H43 & _).
  unfold no_sign_ahead, digits_text. cbn [map app PyFloat.read_sign].
  destruct (N.eqb_spec (48 + d) 45); [congruence|].
  now destruct (N.eqb_spec (48 + d) 43).
Qed.

Lemma tail_facts (t : str) :
  tail_ok t ->
  no_digit_ahead t /\ PyFloat.read_exponent t = (0%Z, t) /\
  forallb inert t = true /\
  match t with c :: _ => (c =? 46) = false | [] => True end.
Proof.
  intros [-> | (c & -> & H)]; [now repeat split|].
  unfold trailing in H.
  apply andb_true_iff in H as [H Hp].
  apply andb_true_iff in H as [Hi Hd].
  apply negb_true_iff in Hp, Hd.
  unfold no_digit_ahead. cbn [PyFloat.span_digits PyFloat.read_exponent
                              forallb].
  rewrite Hd, Hi. repeat split; auto.
  now destruct ((c =? 101) || (c =? 69)).
Qed.

Lemma tail_ok_stops (t : str) : tail_ok t -> stops_literal t.
Proof.
  intros H. destruct (tail_facts t H) as (H1 & H2 & _ & H3).
  now repeat split.
Qed.

Lemma no_digit_before_exp ex (t : str) :
  stops_literal t -> no_digit_ahead (exp_text ex ++ t).
Proof.
  intros H. destruct ex as [[[[|] sg] ds]|]; try reflexivity.
  apply H.
Qed.

Lemma no_digit_before_frac fr ex (t : str) :
  stops_literal t -> no_digit_ahead (frac_text fr ++ exp_text ex ++ t).
Proof.
  intros H. destruct fr; [reflexivity | now apply no_digit_before_exp].
Qed.

Lemma read_exponent_text ex (t : str) :
  stops_literal t ->
  match ex with
  | Some (_, _, ds) => all_digits ds = true /\ ds <> []
  | None => True
  end ->
  PyFloat.read_exponent (exp_text ex ++ t)
  = (match ex with
     | None => 0%Z
     | Some (_, sg, ds) =>
         let v := Z.of_N (PyFloat.digits_value ds) in
         if is_minus sg then (- v)%Z else v
     end, t).
Proof.
  intros Ht. destruct ex as [[[up sg] ds]|]; [|intros _; apply Ht].
  intros [Hd Hne].
  assert (E : PyFloat.read_sign (sign_text sg ++ digits_text ds ++ t)
              = (is_minus sg, digits_text ds ++ t)).
  { apply read_sign_text. now apply no_sign_before_digits. }
  assert (S : PyFloat.span_digits (digits_text ds ++ t) = (ds, t)).
  { apply span_digits_text; [exact Hd | apply Ht]. }
  unfold exp_text. rewrite <- !app_assoc.
  destruct up; cbn [lit map list_ascii_of_string app PyFloat.read_exponent];
    simpl orb; cbv iota; rewrite E, S;
    (destruct ds; [congruence | reflexivity]).
Qed.

Lemma frac_step fr ex (t : str) :
  stops_literal t ->
  match fr with Some fp => all_digits fp = true | None => True end ->
  match frac_text fr ++ exp_text ex ++ t with
  | c :: r => if c =? 46 then PyFloat.span_digits r
              else ([], frac_text fr ++ exp_text ex ++ t)
  | [] => ([], frac_text fr ++ exp_text ex ++ t)
  end = (match fr with Some fp => fp | None => [] end, exp_text ex ++ t).
Proof.
  intros Ht. destruct fr as [fp|]; intros H.
  - unfold frac_text. rewrite <- app_assoc.
    cbn [lit map list_ascii_of_string app].
    change (N_of_ascii "."%char =? 46) with true. cbv iota.
    apply span_digits_text; [exact H | now apply no_digit_before_exp].
  - destruct ex as [[[[|] sg] ds]|]; try reflexivity.
    destruct Ht as (_ & _ & Hp).
    cbn [frac_text exp_text app]. destruct t as [|c r]; [reflexivity|].
    now rewrite Hp.
Qed.

Lemma well_formed_parts (l : literal) :
  well_formed l = true ->
  all_digits (l_int l) = true /\ all_digits (frac_digits l) = true /\
  l_int l ++ frac_digits l <> [] /\
  match l_exp l with
  | Some (_, _, ds) => all_digits ds = true /\ ds <> []
  | None => True
  end.
Proof.
  unfold well_formed. intros H.
  apply andb_true_iff in H as [H He].
  apply andb_true_iff in H as [H Hn].
  apply andb_true_iff in H as [Hi Hf].
  repeat split; auto.
  - intros E. now rewrite E in Hn.
  - destruct (l_exp l) as [[[up sg] ds]|]; [|exact I].
    apply andb_true_iff in He as [He Hd]. split; [exact He|].
    intros ->. discriminate.
Qed.

(** The grammar reads a literal to its end and stops there. *)
Lemma dg_strtod_render (l : literal) (t : str) :
  well_formed l = true -> stops_literal t ->
  PyFloat.dg_strtod (render l ++ t) = Some (literal_value l, t).
Proof.
  intros H Ht. destruct (well_formed_parts l H) as (Hi & Hf & Hne & He).
  unfold PyFloat.dg_strtod, render, literal_value, exp_value.
  rewrite <- !app_assoc.
  assert (S : no_sign_ahead
                (digits_text (l_int l) ++ frac_text (l_frac l)
                   ++ exp_text (l_exp l) ++ t)).
  { destruct (l_int l) as [|d ds] eqn:Ei.
    - unfold frac_digits in Hne. simpl in Hne.
      destruct (l_frac l) as [fp|]; [reflexivity | congruence].
    - apply no_sign_before_digits; [exact Hi | discriminate]. }
  rewrite (read_sign_text _ _ S).
  rewrite (span_digits_text _ _ Hi (no_digit_before_frac _ _ t Ht)).
  rewrite (frac_step _ _ t Ht).
  - fold (frac_digits l).
    destruct (l_int l ++ frac_digits l) as [|d ds] eqn:E; [congruence|].
    now rewrite (read_exponent_text _ t Ht He).
  - unfold frac_digits in Hf. now destruct (l_frac l).
Qed.

Lemma from_string_inert (s : str) :
  forallb inert s = true ->
  PyFloat.from_string s
  = match PyFloat.ascii_strtod s with
    | Some (x, []) => Some x
    | _ => None
    end.
Proof.
  intros R. unfold PyFloat.from_string, PyFloat.from_string_inner.
  rewrite (transform_inert _ R).
  rewrite (remove_underscores_inert _ 0 R) by discriminate.
  now rewrite (strip_ascii_inert _ R).
Qed.

(** The conversion of a decimal literal succeeds, with its value. *)
Lemma from_string_render (l : literal) :
  well_formed l = true ->
  PyFloat.from_string (render l) = Some (literal_value l).
Proof.
  intros H. rewrite (from_string_inert _ (render_inert l H)).
  unfold PyFloat.ascii_strtod. rewrite <- (app_nil_r (render l)).
  rewrite (dg_strtod_render l [] H); [reflexivity|].
  apply tail_ok_stops. now left.
Qed.

(** A literal followed by one more character is not a number. *)
Lemma from_string_render_trailing (l : literal) (c c' : char) :
  well_formed l = true ->
  PyFloat.transform [c] = [c'] -> trailing c' = true ->
  PyFloat.from_string (render l ++ [c]) = None.
Proof.
  intros H Hc Ht.
  assert (T : tail_ok [c']) by (right; now exists c').
  assert (R : forallb inert (render l ++ [c']) = true).
  { rewrite forallb_app, (render_inert l H). apply (tail_facts _ T). }
  assert (E : PyFloat.from_string (render l ++ [c]) =
              PyFloat.from_string (render l ++ [c'])).
  { unfold PyFloat.from_string.
    rewrite (transform_app_inert _ _ (render_inert l H)), Hc.
    now rewrite (transform_inert _ R). }
  rewrite E, (from_string_inert _ R). unfold PyFloat.ascii_strtod.
  now rewrite (dg_strtod_render l [c'] H (tail_ok_stops _ T)).
Qed.

Lemma rev_digits_text (ds : list N) (p : str) :
  all_digits ds = true -> ds <> [] ->
  exists d r, rev (p ++ digits_text ds) = d :: r /\ PyFloat.is_digit d = true.
Proof.
  intros Hd Hne. destruct (exists_last Hne) as (ds' & x & ->).
  unfold all_digits in Hd. rewrite forallb_app in Hd.
  apply andb_true_iff in Hd as [_ Hx]. cbn [forallb] in Hx.
  apply andb_true_iff in Hx as [Hx _]. apply N.ltb_lt in Hx.
  unfold digits_text. rewrite map_app, app_assoc, rev_app_distr.
  cbn [map rev app]. eexists _, _. split; [reflexivity|].
  apply (digit_char x Hx).
Qed.

(** A literal ends with a digit or with the point. *)
Lemma render_last (l : literal) :
  well_formed l = true ->
  exists d r, rev (render l) = d :: r /\
              (PyFloat.is_digit d = true \/ d = 46).
Proof.
  intros H. destruct (well_formed_parts l H) as (Hi & Hf & Hne & He).
  unfold render, frac_digits in *.
  destruct (l_exp l) as [[[up sg] ds]|].
  - destruct He as [Hd Hn]. unfold exp_text. rewrite !app_assoc.
    match goal with
    | |- context [rev (?p ++ digits_text ds)] =>
        destruct (rev_digits_text ds p Hd Hn) as (d & r & E & D)
    end.
    exists d, r. split; [exact E | now left].
  - cbn [exp_text]. rewrite app_nil_r.
    destruct (l_frac l) as [[|x fp]|].
    + cbn [frac_text digits_text map]. rewrite app_nil_r, app_assoc.
      rewrite rev_app_distr. eexists _, _. split; [reflexivity | now right].
    + unfold frac_text. rewrite !app_assoc.
      match goal with
      | |- context [rev (?p ++ digits_text (x :: fp))] =>
          destruct (rev_digits_text (x :: fp) p Hf) as (d & r & E & D);
            [discriminate|]
      end.
      exists d, r. split; [exact E | now left].
    + cbn [frac_text]. rewrite app_nil_r in *.
      destruct (rev_digits_text (l_int l) (sign_text (l_sign l)) Hi Hne)
        as (d & r & E & D).
      exists d, r. split; [exact E | now left].
Qed.

End Literals.

(** ** A literal followed by a one-character prefix *)

Section TrailingPrefix.

Lemma lookup_in {V} (k : str) (d : dict V) (v : V) :
  lookup k d = Some v -> In (k, v) d.
Proof.
  unfold lookup. destruct (find _ d) as [[k' v']|] eqn:E; [|discriminate].
  intros [= <-]. apply find_some in E as [Hin Hk].
  apply str_eqb_eq in Hk. simpl in Hk. now subst k'.
Qed.

Lemma find_all_false {A} (f : A -> bool) (l : list A) :
  (forall x, In x l -> f x = false) -> find f l = None.
Proof.
  induction l as [|x l IH]; intros H; simpl; [reflexivity|].
  rewrite (H x (or_introl eq_refl)). apply IH. intros; apply H; now right.
Qed.

Lemma last_char_app (s : str) (c : char) :
  PyStr.last_char (s ++ [c]) = Some c.
Proof. unfold PyStr.last_char. now rewrite rev_app_distr. Qed.

Lemma prefix_char_in (c : char) (m : Float64.t) :
  lookup [c] prefixes = Some m -> In c prefix_chars.
Proof.
  intros H. apply lookup_in, (in_map fst) in H.
  unfold prefix_chars. apply in_flat_map. exists [c]. split; [exact H|].
  now left.
Qed.

(** Checked on every one-character key against every unit symbol. *)
Lemma prefix_chars_checked :
  forallb (fun c =>
             follows_literal c
             && forallb (fun k => negb (may_end_after_literal c k))
                  (keys units)) prefix_chars = true.
Proof. vm_compute. reflexivity. Qed.

Lemma ends_after_literal (s : str) (c d : char) (r k : str) :
  rev s = d :: r -> PyFloat.is_digit d = true \/ d = 46 ->
  PyStr.endswith (s ++ [c]) k = true -> may_end_after_literal c k = true.
Proof.
  intros Hs Hd. unfold PyStr.endswith, may_end_after_literal.
  rewrite rev_app_distr, Hs. cbn [rev app].
  destruct (rev k) as [|x [|y t]]; cbn [PyStr.startswith]; auto.
  - intros H. now apply andb_true_iff in H as [H _].
  - intros H. apply andb_true_iff in H as [Hx H].
    apply andb_true_iff in H as [Hy _]. apply N.eqb_eq in Hy. subst y.
    rewrite Hx. destruct Hd as [-> | ->]; [reflexivity|].
    now rewrite orb_true_r.
Qed.

Lemma prefix_char_facts (c : char) (m : Float64.t) :
  lookup [c] prefixes = Some m ->
  (exists c', PyFloat.transform [c] = [c'] /\ trailing c' = true) /\
  (forall s d r,
      rev s = d :: r -> PyFloat.is_digit d = true \/ d = 46 ->
      strip_unit (s ++ [c]) = (None, s ++ [c])).
Proof.
  intros H. apply prefix_char_in in H.
  pose proof prefix_chars_checked as K.
  rewrite forallb_forall in K. specialize (K c H).
  apply andb_true_iff in K as [K1 K2]. split.
  - unfold follows_literal in K1.
    destruct (PyFloat.transform [c]) as [|c' [|? ?]]; try discriminate.
    now exists c'.
  - intros s d r Hs Hd. unfold strip_unit, strip_unit_in.
    rewrite find_all_false; [reflexivity|].
    intros [k name] Hk. cbn [fst].
    destruct (PyStr.endswith (s ++ [c]) k) eqn:E; [|reflexivity].
    apply (ends_after_literal s c d r k Hs Hd) in E.
    rewrite forallb_forall in K2.
    specialize (K2 k (in_map fst _ _ Hk)). now rewrite E in K2.
Qed.

(** A decimal literal followed by a one-character key of the prefix
    table parses to the value of the literal times the multiplier of the
    key, without a unit. *)
Lemma single_char_prefix_trails (l : literal) (c : char) (m : Float64.t) :
  well_formed l = true -> lookup [c] prefixes = Some m ->
  value_parser (PyStr (render l ++ [c]))
  = inr (Float64.mul (literal_value l) m, None).
Proof.
  intros H Hc.
  destruct (prefix_char_facts c m Hc) as [(c' & Tc & Tr) U].
  destruct (render_last l H) as (d & r & Hr & Hd).
  unfold value_parser, float.
  rewrite (from_string_render_trailing l c c' H Tc Tr).
  unfold on_value_error. rewrite (U _ d r Hr Hd).
  unfold magnitude. rewrite last_char_app, Hc, removelast_last.
  unfold float_times, float. now rewrite (from_string_render l H).
Qed.

End TrailingPrefix.

(** ** The assertions of the module's own tests

    [test_unitless], [test_trailing_prefix], [test_infix] and
    [test_units], with the product on the right of an assertion computed
    as Python computes it. *)

Lemma module_tests_hold :
  let p s := value_parser (PyStr s) in
  let times a b := Float64.mul a b in
  (* test_unitless *)
  value_parser (PyInt 4700) = inr (dec 4700 0, None) /\
  value_parser (PyFloat (dec 33 (-1))) = inr (dec 33 (-1), None) /\
  value_parser (PyFloat (dec 47 2)) = inr (dec 47 2, None) /\
  value_parser (PyFloat (dec 983652 (-10))) = inr (dec 983652 (-10), None) /\
  p (lit "3.3") = inr (dec 33 (-1), None) /\
  p (lit "3") = inr (dec 3 0, None) /\
  p (lit "3e3") = inr (dec 3 3, None) /\
  p (lit "9.83652e-05") = inr (dec 983652 (-10), None) /\
  (* test_trailing_prefix *)
  p (lit "3k") = inr (dec 3000 0, None) /\
  p (lit "3K") = inr (dec 3000 0, None) /\
  p (lit "3.3K") = inr (dec 3300 0, None) /\
  p (lit "10u") = inr (times (dec 10 0) (dec 1 (-6)), None) /\
  p (lit "10 u") = inr (times (dec 10 0) (dec 1 (-6)), None) /\
  p (lit "10" ++ [0x3bc]) = inr (times (dec 10 0) (dec 1 (-6)), None) /\
  p (lit "10" ++ [0xb5]) = inr (times (dec 10 0) (dec 1 (-6)), None) /\
  (* test_infix *)
  p (lit "3k3") = inr (dec 3300 0, None) /\
  p (lit "2M2") = inr (dec 22 5, None) /\
  p (lit "4n7") = inr (times (dec 47 (-1)) (dec 1 (-9)), None) /\
  p (lit "3R3") = inr (dec 33 (-1), None) /\
  (* test_units *)
  p (lit "10mA") = inr (dec 10 (-3), Some "ampere"%string) /\
  p (lit "10 ohm") = inr (dec 10 0, Some "ohm"%string) /\
  p (lit "10   A") = inr (dec 10 0, Some "ampere"%string) /\
  p (lit "3kA") = inr (dec 3 3, Some "ampere"%string) /\
  p (lit "1 F") = inr (dec 1 0, Some "farad"%string) /\
  p (lit "3kohm") = inr (dec 3 3, Some "ohm"%string) /\
  p (lit "3 k" ++ [0x3a9]) = inr (dec 3 3, Some "ohm"%string) /\
  p (lit "103.013 uF")
    = inr (times (dec 103013 (-3)) (dec 1 (-6)), Some "farad"%string) /\
  p (lit "10 " ++ [0x3bc] ++ lit "F")
    = inr (times (dec 10 0) (dec 1 (-6)), Some "farad"%string) /\
  p (lit "100R") = inr (dec 100 0, Some "ohm"%string) /\
  p (lit "4.7kV") = inr (times (dec 47 (-1)) (dec 1 3), Some "volt"%string) /\
  p (lit "4.7k" ++ [0x2126])
    = inr (times (dec 47 (-1)) (dec 1 3), Some "ohm"%string) /\
  p (lit "4.7k" ++ [0x3a9])
    = inr (times (dec 47 (-1)) (dec 1 3), Some "ohm"%string) /\
  p (lit "245.894 mH")
    = inr (times (dec 245894 (-3)) (dec 1 (-3)), Some "henry"%string).
Proof. vm_compute. repeat split. Qed.

(** * The claims *)

(** C2, refuted as stated: the empty text raises [IndexError], and a text
    without digits that spells an infinity is converted. *)
Lemma no_digit_text_counterexample :
  no_digit (lit "") = true /\
  value_parser (PyStr (lit "")) = inl IndexError /\
  no_digit (lit "inf") = true /\
  value_parser (PyStr (lit "inf")) = inr (S754_infinity false, None) /\
  no_digit (lit "INFV") = true /\
  value_parser (PyStr (lit "INFV"))
    = inr (S754_infinity false, Some "volt"%string).
Proof. vm_compute. repeat split. Qed.

(** C2, amended.  For every text without a digit that leaves something
    after the unit is removed, the parse either fails with [ValueError] or
    returns an infinity or a NaN, which [float] reads from their
    spellings; it never returns a finite number.  A [k] followed by an
    ohm sign fails with [ValueError]. *)
Theorem no_digit_text_never_finite :
  (forall s,
      no_digit s = true -> snd (strip_unit s) <> [] ->
      value_parser (PyStr s) = inl ValueError \/
      exists f unit,
        value_parser (PyStr s) = inr (f, unit) /\
        Float64.is_finite f = false) /\
  value_parser (PyStr (lit "k" ++ [0x3a9])) = inl ValueError /\
  value_parser (PyStr (lit "k" ++ [0x2126])) = inl ValueError.
Proof.
  split; [|vm_compute; split; reflexivity].
  intros s Hd Hne. unfold value_parser, float.
  destruct (PyFloat.from_string s) as [f|] eqn:E.
  - right. exists f, None. eauto using from_string_no_digit.
  - unfold on_value_error.
    destruct (strip_unit s) as [unit rest] eqn:Eu. simpl in Hne.
    assert (Hr : no_digit rest = true).
    { apply (no_digit_incl s); [|exact Hd].
      intros c Hc. apply strip_unit_incl. now rewrite Eu. }
    destruct (magnitude_no_digit rest Hr Hne) as [-> | (f & -> & Hf)].
    + now left.
    + right. now exists f, unit.
Qed.

Lemma no_digit_text_never_finite_witness :
  no_digit (lit "k" ++ [0x3a9]) = true /\
  snd (strip_unit (lit "k" ++ [0x3a9])) <> [] /\
  (value_parser (PyStr (lit "k" ++ [0x3a9])) = inl ValueError \/
   exists f unit,
     value_parser (PyStr (lit "k" ++ [0x3a9])) = inr (f, unit) /\
     Float64.is_finite f = false).
Proof.
  split; [reflexivity|]. split; [vm_compute; discriminate|].
  apply (proj1 no_digit_text_never_finite (lit "k" ++ [0x3a9]));
    [reflexivity | vm_compute; discriminate].
Defined.

(** C3.  The unit scan takes the longest of the symbols that end the
    input, in whatever order the table is read: its result is the result
    of the longest-match rule; the symbol it removes ends the input and no
    symbol that ends the input is longer; and a text that ends in ["Hz"]
    is read as hertz, never as henry.  (The scan stops at the first match.
    No symbol of the table ends another one, so the first match is the
    only match.) *)
Theorem unit_scan_takes_longest_suffix :
  (forall table value,
      Permutation table units ->
      strip_unit_in table value = strip_unit_longest value) /\
  (forall table value name rest,
      Permutation table units ->
      strip_unit_in table value = (Some name, rest) ->
      exists test_unit,
        In (test_unit, name) units /\
        PyStr.endswith value test_unit = true /\
        rest = PyStr.strip
                 (PyStr.slice_to_minus (List.length test_unit) value) /\
        forall other,
          In other (keys units) -> PyStr.endswith value other = true ->
          (List.length other <= List.length test_unit)%nat) /\
  (forall table s,
      Permutation table units ->
      strip_unit_in table (s ++ lit "Hz")
        = (Some "hertz"%string, PyStr.strip s) /\
      fst (strip_unit_in table (s ++ lit "Hz")) <> Some "henry"%string) /\
  value_parser (PyStr (lit "50Hz")) = inr (dec 50 0, Some "hertz"%string) /\
  value_parser (PyStr (lit "50H")) = inr (dec 50 0, Some "henry"%string).
Proof.
  split; [|split; [|split; [|vm_compute; split; reflexivity]]].
  - intros table value P. rewrite (strip_unit_in_perm table value P).
    apply strip_unit_is_longest.
  - intros table value name rest P H.
    rewrite (strip_unit_in_perm table value P) in H.
    unfold strip_unit, strip_unit_in in H.
    destruct (find (fun kv => PyStr.endswith value (fst kv)) units)
      as [[k n]|] eqn:F; [|discriminate].
    injection H as <- <-. apply find_some in F as [Hin E]. cbn [fst] in E.
    exists k. split; [exact Hin|]. split; [exact E|]. split; [reflexivity|].
    intros other Ho Eo.
    apply in_map_iff in Ho as ([k' n'] & <- & Hk'). cbn [fst] in *.
    assert (U := units_match_unique value (k', n') (k, n) Hk' Hin Eo E).
    injection U as -> _. apply le_n.
  - intros table s P. rewrite (strip_unit_in_perm table _ P).
    rewrite (strip_unit_app s (lit "Hz") "hertz"%string);
      [split; [reflexivity | discriminate]|].
    unfold units. simpl. tauto.
Qed.

Lemma unit_scan_takes_longest_suffix_witness :
  Permutation (rev units) units /\
  strip_unit_in (rev units) (lit "50 Hz") = (Some "hertz"%string, lit "50") /\
  strip_unit_in (rev units) (lit "50 Hz") = strip_unit_longest (lit "50 Hz") /\
  (exists test_unit,
      In (test_unit, "hertz"%string) units /\
      PyStr.endswith (lit "50 Hz") test_unit = true /\
      lit "50" = PyStr.strip
                   (PyStr.slice_to_minus (List.length test_unit)
                      (lit "50 Hz")) /\
      forall other,
        In other (keys units) ->
        PyStr.endswith (lit "50 Hz") other = true ->
        (List.length other <= List.length test_unit)%nat) /\
  strip_unit_in (rev units) (lit "50 " ++ lit "Hz")
    = (Some "hertz"%string, PyStr.strip (lit "50 ")).
Proof.
  assert (P : Permutation (rev units) units)
    by apply Permutation_sym, Permutation_rev.
  refine (conj P (conj eq_refl (conj _ (conj _ _)))).
  - exact (proj1 unit_scan_takes_longest_suffix (rev units) (lit "50 Hz") P).
  - exact (proj1 (proj2 unit_scan_takes_longest_suffix)
             (rev units) (lit "50 Hz") "hertz"%string (lit "50") P eq_refl).
  - exact (proj1 (proj1 (proj2 (proj2 unit_scan_takes_longest_suffix))
                    (rev units) (lit "50 ") P)).
Defined.

(** C4, the failing input: in ["1k2k3"] the key [k] occurs twice.  The
    text is cut at both occurrences and only the first two parts are
    joined, so the literal is ["1.2"] and the result 1200: the ["3"] after
    the second [k] is dropped unread, and so is any other text there.  With
    everything after the first occurrence as the right part the literal
    would be ["1.2k3"], which does not convert.  The other branches hand
    all that is left to [float] and fail on such text. *)
Theorem infix_split_drops_text :
  PyStr.last_char (lit "1k2k3") = Some 51 /\
  lookup [51] prefixes = None /\
  first_infix (lit "1k2k3") = Some (lit "k", Float64.e10 3) /\
  split (lit "1k2k3") (lit "k") = inr [lit "1"; lit "2"; lit "3"] /\
  infix_literal (lit "1k2k3") (lit "k") = inr (lit "1.2") /\
  infix_literal_rest (lit "1k2k3") (lit "k") = Some (lit "1.2k3") /\
  float_times (lit "1.2k3") (Float64.e10 3) = inl ValueError /\
  value_parser (PyStr (lit "1k2k3")) = inr (dec 1200 0, None) /\
  value_parser (PyStr (lit "1k2kgarbage")) = inr (dec 1200 0, None) /\
  value_parser (PyStr (lit "1k2")) = inr (dec 1200 0, None) /\
  value_parser (PyStr (lit "1k2k")) = inl ValueError /\
  value_parser (PyStr (lit "1kgarbage")) = inl ValueError /\
  value_parser (PyStr (lit "1.2garbage")) = inl ValueError.
Proof. vm_compute. repeat split. Qed.

(** What the infix branch reads.  For every remaining text whose last
    character is not a prefix key and in which some key of the infix table
    occurs, the parse takes the first key of the table that occurs, cuts
    the text at the leftmost occurrence of it, keeps as right part the
    text between that occurrence and the next one (all the rest when
    there is no other), and multiplies the conversion of
    left + "." + right by the multiplier of the key. *)
Lemma infix_branch_reads_between_occurrences (value : str) (c : char) :
  PyStr.last_char value = Some c -> lookup [c] prefixes = None ->
  (exists k, In k (keys infixes) /\ PyStr.contains k value = true) ->
  exists test_inf mul a b mid,
    first_in_table (fun kv => PyStr.contains (fst kv) value) infixes
      (test_inf, mul) /\
    first_occurrence test_inf value a b /\
    (PyStr.contains test_inf b = false /\ mid = b \/
     exists rest, first_occurrence test_inf b mid rest) /\
    magnitude value = float_times (a ++ lit "." ++ mid) mul.
Proof.
  intros Hc Hp (k & Hk & Ck).
  destruct (first_infix value) as [[test_inf mul]|] eqn:Hi.
  - destruct (magnitude_infix value c test_inf mul Hc Hp Hi)
      as (a & b & Hf & Hm).
    exists test_inf, mul, a, b, (upto test_inf b).
    split; [|split; [|split]].
    + now apply find_first_in_table.
    + now apply find_sub_first_occurrence.
    + apply upto_cases.
    + exact Hm.
  - apply in_map_iff in Hk as (kv & <- & Hin).
    now rewrite (find_none _ _ Hi kv Hin) in Ck.
Qed.

(** C5, the failing inputs: [MEG] and [Meg] are keys of the prefix table
    with the multiplier 1e6, yet ["3MEG"] and ["3Meg"] do not parse.  Only
    the last character is looked up: [G] is taken for giga and ["3ME"]
    does not convert; [g] is no key, and the infix [M] leaves ["3.eg"]. *)
Theorem multichar_prefix_not_recognised :
  lookup (lit "MEG") prefixes = Some (Float64.e10 6) /\
  lookup (lit "Meg") prefixes = Some (Float64.e10 6) /\
  float (PyStr (lit "3")) = inr (dec 3 0) /\
  value_parser (PyStr (lit "3MEG")) = inl ValueError /\
  value_parser (PyStr (lit "3Meg")) = inl ValueError.
Proof. vm_compute. repeat split. Qed.

(** C6, refuted as stated: a blank after the unit symbol hides it from the
    scan, which the scan of the trimmed text would find; the parse
    fails. *)
Lemma trailing_blank_counterexample :
  strip_unit (lit "10A ") = (None, lit "10A ") /\
  strip_unit_trimmed (lit "10A ") = (Some "ampere"%string, lit "10") /\
  value_parser (PyStr (lit "10A ")) = inl ValueError /\
  value_parser (PyStr (lit "10A")) = inr (dec 10 0, Some "ampere"%string).
Proof. vm_compute. repeat split. Qed.

(** C6, amended.  The unit scan tests the input as it is given; after a
    matching symbol is removed, what remains is trimmed on both sides.
    So white space before the text and between the text and the unit
    symbol changes nothing, wherever neither form is a plain number;
    ["10 A"] and ["10A"] both parse to 10 ampere. *)
Theorem blanks_before_unit_tolerated :
  (forall s test_unit name,
      In (test_unit, name) units ->
      strip_unit (s ++ test_unit) = (Some name, PyStr.strip s)) /\
  (forall w1 body w2 test_unit name,
      In (test_unit, name) units ->
      all_space w1 = true -> all_space w2 = true ->
      float (PyStr ((w1 ++ body ++ w2) ++ test_unit)) = inl ValueError ->
      float (PyStr (body ++ test_unit)) = inl ValueError ->
      value_parser (PyStr ((w1 ++ body ++ w2) ++ test_unit))
        = value_parser (PyStr (body ++ test_unit))) /\
  value_parser (PyStr (lit "10 A")) = inr (dec 10 0, Some "ampere"%string) /\
  value_parser (PyStr (lit "10A")) = inr (dec 10 0, Some "ampere"%string).
Proof.
  split; [|split; [|vm_compute; split; reflexivity]].
  - intros s test_unit name. apply strip_unit_app.
  - intros w1 body w2 test_unit name Hk H1 H2 F1 F2.
    unfold value_parser. rewrite F1, F2. unfold on_value_error.
    rewrite !(strip_unit_app _ test_unit name Hk).
    now rewrite strip_surrounded.
Qed.

Lemma blanks_before_unit_tolerated_witness :
  In (lit "A", "ampere"%string) units /\
  all_space (lit " ") = true /\ all_space (lit "  ") = true /\
  float (PyStr ((lit " " ++ lit "10" ++ lit "  ") ++ lit "A"))
    = inl ValueError /\
  float (PyStr (lit "10" ++ lit "A")) = inl ValueError /\
  strip_unit (lit "10 " ++ lit "A")
    = (Some "ampere"%string, PyStr.strip (lit "10 ")) /\
  value_parser (PyStr ((lit " " ++ lit "10" ++ lit "  ") ++ lit "A"))
    = value_parser (PyStr (lit "10" ++ lit "A")).
Proof.
  assert (I : In (lit "A", "ampere"%string) units)
    by (unfold units; simpl; tauto).
  refine (conj I (conj eq_refl (conj eq_refl (conj eq_refl
          (conj eq_refl (conj _ _)))))).
  - exact (proj1 blanks_before_unit_tolerated
             (lit "10 ") (lit "A") "ampere"%string I).
  - exact (proj1 (proj2 blanks_before_unit_tolerated)
             (lit " ") (lit "10") (lit "  ") (lit "A") "ampere"%string
             I eq_refl eq_refl eq_refl eq_refl).
Defined.

(** C7.  ["3R3"] parses to exactly (3.3, None): no unit symbol ends the
    text, the infix [R] stands for the decimal point with the multiplier
    1, and the result does not carry the unit ohm. *)
Theorem bare_infix_R_has_no_unit :
  strip_unit (lit "3R3") = (None, lit "3R3") /\
  first_infix (lit "3R3") = Some (lit "R", Float64.one) /\
  infix_literal (lit "3R3") (lit "R") = inr (lit "3.3") /\
  value_parser (PyStr (lit "3R3")) = inr (dec 33 (-1), None) /\
  value_parser (PyStr (lit "3R3"))
    <> inr (dec 33 (-1), Some "ohm"%string).
Proof. vm_compute. repeat split. discriminate. Qed.

(** C8.  Every input that [float] converts, text or number, is returned
    as that number with no unit; every decimal literal (digits, optional
    sign, point and exponent) is such an input and is returned as the
    binary64 value nearest to it; so are ["3e3"] and ["9.83652e-05"], the
    int 4700 and a float. *)
Theorem numeric_input_returned_as_is :
  (forall value f, float value = inr f -> value_parser value = inr (f, None)) /\
  (forall l, well_formed l = true ->
             value_parser (PyStr (render l)) = inr (literal_value l, None)) /\
  value_parser (PyStr (lit "3e3")) = inr (dec 3 3, None) /\
  value_parser (PyStr (lit "9.83652e-05")) = inr (dec 983652 (-10), None) /\
  value_parser (PyStr (lit "3.3")) = inr (dec 33 (-1), None) /\
  value_parser (PyStr (lit "3")) = inr (dec 3 0, None) /\
  value_parser (PyInt 4700) = inr (dec 4700 0, None) /\
  value_parser (PyFloat (dec 33 (-1))) = inr (dec 33 (-1), None).
Proof.
  split; [|split; [|vm_compute; repeat split]].
  - intros value f H. unfold value_parser. now rewrite H.
  - intros l H. unfold value_parser, float.
    now rewrite (from_string_render l H).
Qed.

Lemma numeric_input_returned_as_is_witness :
  float (PyStr (lit "3e3")) = inr (dec 3 3) /\
  value_parser (PyStr (lit "3e3")) = inr (dec 3 3, None) /\
  well_formed
    {| l_sign := None; l_int := [9]; l_frac := Some [8; 3; 6; 5; 2];
       l_exp := Some (false, Some true, [0; 5]) |} = true /\
  value_parser (PyStr (lit "9.83652e-05")) = inr (dec 983652 (-10), None).
Proof.
  refine (conj eq_refl (conj _ (conj eq_refl _))).
  - exact (proj1 numeric_input_returned_as_is
             (PyStr (lit "3e3")) (dec 3 3) eq_refl).
  - exact (proj1 (proj2 numeric_input_returned_as_is)
             {| l_sign := None; l_int := [9]; l_frac := Some [8; 3; 6; 5; 2];
                l_exp := Some (false, Some true, [0; 5]) |} eq_refl).
Defined.

(** C9.  ["1E3V"] is such an input: what remains after the unit, ["1E3"],
    is exponent notation for 1000, but the infix search finds the key [E]
    of exa, and the parse returns (1.3e18, "volt"). *)
Theorem uppercase_E_taken_as_exa :
  exists s rest,
    strip_unit s = (Some "volt"%string, rest) /\
    float (PyStr rest) = inr (dec 1 3) /\
    first_infix rest = Some (lit "E", Float64.e10 18) /\
    infix_literal rest (lit "E") = inr (lit "1.3") /\
    value_parser (PyStr s) = inr (dec 13 17, Some "volt"%string) /\
    value_parser (PyStr s) <> inr (dec 1 3, Some "volt"%string).
Proof.
  exists (lit "1E3V"), (lit "1E3"). vm_compute. repeat split. discriminate.
Qed.

(** C10.  No symbol of the units table ends another one; so at most one
    symbol ends any given text, the scan gives the same result for every
    order of the table, and the first match is the longest match. *)
Theorem unit_scan_independent_of_order :
  (forall a b,
      In a (keys units) -> In b (keys units) ->
      PyStr.endswith b a = true -> a = b) /\
  (forall s a b,
      In a (keys units) -> In b (keys units) ->
      PyStr.endswith s a = true -> PyStr.endswith s b = true -> a = b) /\
  (forall table value,
      Permutation table units ->
      strip_unit_in table value = strip_unit value) /\
  (forall value, strip_unit value = strip_unit_longest value).
Proof.
  split; [|split; [|split]].
  - intros a b Ha Hb E.
    apply in_map_iff in Ha as ([k n] & <- & Hk).
    apply in_map_iff in Hb as ([k' n'] & <- & Hk').
    now rewrite (units_not_nested (k, n) (k', n') Hk Hk' E).
  - intros s a b Ha Hb Ea Eb.
    apply in_map_iff in Ha as ([k n] & <- & Hk).
    apply in_map_iff in Hb as ([k' n'] & <- & Hk').
    now rewrite (units_match_unique s (k, n) (k', n') Hk Hk' Ea Eb).
  - intros table value. apply strip_unit_in_perm.
  - apply strip_unit_is_longest.
Qed.

Lemma unit_scan_independent_of_order_witness :
  In (lit "H") (keys units) /\ In (lit "Hz") (keys units) /\
  PyStr.endswith (lit "3H") (lit "H") = true /\
  Permutation (rev units) units /\
  strip_unit_in (rev units) (lit "50 Hz") = strip_unit (lit "50 Hz") /\
  lit "H" = lit "H".
Proof.
  assert (I1 : In (lit "H") (keys units)) by (vm_compute; tauto).
  assert (I2 : In (lit "Hz") (keys units)) by (vm_compute; tauto).
  assert (P : Permutation (rev units) units)
    by apply Permutation_sym, Permutation_rev.
  refine (conj I1 (conj I2 (conj eq_refl (conj P (conj _ _))))).
  - exact (proj1 (proj2 (proj2 unit_scan_independent_of_order))
             (rev units) (lit "50 Hz") P).
  - exact (proj1 (proj2 unit_scan_independent_of_order)
             (lit "3H") (lit "H") (lit "H") I1 I1 eq_refl eq_refl).
Defined.

(** * Further properties of the parser *)

(** ** Exceptions *)

Section Exceptions.

Lemma last_char_none (s : str) : PyStr.last_char s = None -> s = [].
Proof.
  unfold PyStr.last_char. intros H.
  destruct (rev s) eqn:E; [|discriminate].
  apply (f_equal (@rev _)) in E. now rewrite rev_involutive in E.
Qed.

Lemma float_times_error (s : str) (m : Float64.t) e :
  float_times s m = inl e -> e = ValueError.
Proof.
  unfold float_times, float.
  destruct (PyFloat.from_string s); [discriminate | congruence].
Qed.

Lemma magnitude_error (value : str) e :
  magnitude value = inl e ->
  e = ValueError \/ (e = IndexError /\ value = []).
Proof.
  destruct (PyStr.last_char value) as [c|] eqn:Hc.
  - destruct (lookup [c] prefixes) as [mul|] eqn:Hp.
    + unfold magnitude. rewrite Hc, Hp. eauto using float_times_error.
    + destruct (first_infix value) as [[k mul]|] eqn:Hi.
      * destruct (magnitude_infix value c k mul Hc Hp Hi)
          as (a & b & _ & ->).
        eauto using float_times_error.
      * unfold magnitude. rewrite Hc, Hp, Hi.
        eauto using float_times_error.
  - unfold magnitude. rewrite Hc. intros [= <-].
    right. split; [reflexivity | now apply last_char_none].
Qed.

End Exceptions.

(** X1.  On a text the parser raises [ValueError] or [IndexError] and
    nothing else, and [IndexError] exactly when the text is no number and
    nothing is left of it once the unit symbol is removed. *)
Theorem text_input_exceptions (s : str) :
  (forall e, value_parser (PyStr s) = inl e ->
             e = ValueError \/ e = IndexError) /\
  (value_parser (PyStr s) = inl IndexError <->
   float (PyStr s) = inl ValueError /\ snd (strip_unit s) = []).
Proof.
  unfold value_parser, on_value_error, float.
  destruct (PyFloat.from_string s) as [f|].
  - split; [discriminate|]. split; [discriminate|].
    intros [H _]. discriminate.
  - destruct (strip_unit s) as [unit rest]. cbn [snd].
    destruct (magnitude rest) as [e|f] eqn:M.
    + pose proof (magnitude_error _ _ M) as E. split.
      * intros e' [= <-]. tauto.
      * split.
        -- intros [= ->]. destruct E as [E | [_ E]]; [discriminate|].
           now split.
        -- intros [_ ->]. vm_compute in M. now injection M as <-.
    + split; [discriminate|]. split; [discriminate|].
      intros [_ ->]. discriminate.
Qed.

Lemma text_input_exceptions_witness :
  value_parser (PyStr (lit " V")) = inl IndexError /\
  (IndexError = ValueError \/ IndexError = IndexError) /\
  float (PyStr (lit " V")) = inl ValueError /\
  snd (strip_unit (lit " V")) = [].
Proof.
  assert (H : value_parser (PyStr (lit " V")) = inl IndexError)
    by reflexivity.
  refine (conj H (conj _ _)).
  - exact (proj1 (text_input_exceptions (lit " V")) IndexError H).
  - exact (proj1 (proj2 (text_input_exceptions (lit " V"))) H).
Defined.

(** ** The unit of a result *)

(** X2.  A unit in the result is a name of the units table, and the input
    is then a text that is no number and ends with a symbol of that
    name; a number given as int or float never gets a unit. *)
Theorem returned_unit_is_canonical (value : pyval) (f : Float64.t)
  (name : string) :
  value_parser value = inr (f, Some name) ->
  exists s test_unit,
    value = PyStr s /\ float value = inl ValueError /\
    In (test_unit, name) units /\ PyStr.endswith s test_unit = true /\
    In name ["ohm"; "farad"; "henry"; "volt"; "ampere"; "watt"; "hertz";
             "coulomb"; "siemen"]%string.
Proof.
  unfold value_parser. destruct (float value) as [e|g] eqn:F;
    [|discriminate].
  destruct e; try discriminate.
  destruct value as [z|g|s]; try discriminate.
  unfold on_value_error, strip_unit, strip_unit_in.
  destruct (find _ units) as [[k n]|] eqn:E.
  - destruct (magnitude _); [discriminate|]. intros [= _ <-].
    apply find_some in E as [Hin Hk]. exists s, k.
    repeat split; auto.
    unfold units in Hin. simpl in Hin.
    repeat (destruct Hin as [Hin | Hin];
            [injection Hin as _ <-; simpl; tauto|]).
    destruct Hin.
  - destruct (magnitude s); discriminate.
Qed.

Lemma returned_unit_is_canonical_witness :
  value_parser (PyStr (lit "10 " ++ [0x3bc] ++ lit "F"))
    = inr (Float64.mul (dec 10 0) (dec 1 (-6)), Some "farad"%string) /\
  exists s test_unit,
    PyStr (lit "10 " ++ [0x3bc] ++ lit "F") = PyStr s /\
    float (PyStr (lit "10 " ++ [0x3bc] ++ lit "F")) = inl ValueError /\
    In (test_unit, "farad"%string) units /\
    PyStr.endswith s test_unit = true /\
    In "farad"%string
      ["ohm"; "farad"; "henry"; "volt"; "ampere"; "watt"; "hertz";
       "coulomb"; "siemen"]%string.
Proof.
  assert (H : value_parser (PyStr (lit "10 " ++ [0x3bc] ++ lit "F"))
              = inr (Float64.mul (dec 10 0) (dec 1 (-6)),
                     Some "farad"%string)) by (vm_compute; reflexivity).
  split; [exact H|].
  exact (returned_unit_is_canonical _ _ _ H).
Defined.

(** X3.  A text that is no number and is given no unit is accepted only
    through a prefix or an infix: its last character is a key of the
    prefix table, or a key of the infix table occurs in it.  The branch
    [mul = 1] alone cannot succeed, it converts the very text that
    [float] refused. *)
Theorem unitless_text_needs_prefix_or_infix (s : str) (f : Float64.t) :
  float (PyStr s) = inl ValueError ->
  value_parser (PyStr s) = inr (f, None) ->
  (exists c mul, PyStr.last_char s = Some c /\
                 lookup [c] prefixes = Some mul) \/
  (exists test_inf mul, first_infix s = Some (test_inf, mul)).
Proof.
  intros F. unfold value_parser. rewrite F.
  unfold on_value_error, strip_unit, strip_unit_in.
  destruct (find _ units) as [[k n]|].
  - destruct (magnitude _); discriminate.
  - unfold magnitude.
    destruct (PyStr.last_char s) as [c|]; [|discriminate].
    destruct (lookup [c] prefixes) as [m|] eqn:Hp.
    { intros _. left. now exists c, m. }
    destruct (first_infix s) as [[k m]|] eqn:Hi.
    { intros _. right. now exists k, m. }
    unfold float_times. now rewrite F.
Qed.

Lemma unitless_text_needs_prefix_or_infix_witness :
  float (PyStr (lit "4k7")) = inl ValueError /\
  value_parser (PyStr (lit "4k7")) = inr (dec 4700 0, None) /\
  ((exists c mul, PyStr.last_char (lit "4k7") = Some c /\
                  lookup [c] prefixes = Some mul) \/
   (exists test_inf mul, first_infix (lit "4k7") = Some (test_inf, mul))).
Proof.
  assert (F : float (PyStr (lit "4k7")) = inl ValueError) by reflexivity.
  assert (H : value_parser (PyStr (lit "4k7")) = inr (dec 4700 0, None))
    by (vm_compute; reflexivity).
  refine (conj F (conj H _)).
  exact (unitless_text_needs_prefix_or_infix _ _ F H).
Defined.

(** ** The tables *)

Section Tables.

Lemma lookup_app {V} (k : str) (d d' : dict V) :
  lookup k (d ++ d')
  = match lookup k d with Some v => Some v | None => lookup k d' end.
Proof.
  unfold lookup. induction d as [|[k' v'] d IH]; simpl; [reflexivity|].
  destruct (str_eqb k' k); [reflexivity | exact IH].
Qed.

Lemma infixes_eq : infixes = prefixes ++ [(lit "R", Float64.one)].
Proof. reflexivity. Qed.

End Tables.

(** X4.  The infix table is the prefix table with one more key at its
    end: every key of the prefix table has the same multiplier in both,
    [R] is in the infix table only, with the multiplier one, and no key
    occurs twice. *)
Theorem infixes_extend_prefixes :
  (forall k mul, lookup k prefixes = Some mul ->
                 lookup k infixes = Some mul) /\
  (forall k, lookup k prefixes = None ->
             lookup k infixes
             = if str_eqb (lit "R") k then Some Float64.one else None) /\
  lookup (lit "R") prefixes = None /\
  keys infixes = keys prefixes ++ [lit "R"] /\
  NoDup (keys infixes).
Proof.
  rewrite infixes_eq. split; [|split; [|split; [|split]]].
  - intros k mul H. now rewrite lookup_app, H.
  - intros k H. rewrite lookup_app, H. unfold lookup. cbn [find fst].
    now destruct (str_eqb (lit "R") k).
  - reflexivity.
  - unfold keys. now rewrite map_app.
  - apply (NoDup_count_occ' (list_eq_dec N.eq_dec)).
    intros k Hk. vm_compute in Hk.
    repeat (destruct Hk as [<- | Hk]; [vm_compute; reflexivity|]).
    destruct Hk.
Qed.

Lemma infixes_extend_prefixes_witness :
  lookup (lit "k") prefixes = Some (Float64.e10 3) /\
  lookup (lit "k") infixes = Some (Float64.e10 3) /\
  lookup (lit "R") infixes = Some Float64.one.
Proof.
  assert (K : lookup (lit "k") prefixes = Some (Float64.e10 3))
    by reflexivity.
  assert (R : lookup (lit "R") prefixes = None) by reflexivity.
  refine (conj K (conj _ _)).
  - exact (proj1 infixes_extend_prefixes (lit "k") _ K).
  - exact (proj1 (proj2 infixes_extend_prefixes) (lit "R") R).
Defined.

(** ** The tests of the module *)

(** X5.  The four test functions of the module pass: every assertion of
    [test_unitless], [test_trailing_prefix], [test_infix] and
    [test_units] holds. *)
Theorem parser_tests_pass :
  test_unitless = true /\ test_trailing_prefix = true /\
  test_infix = true /\ test_units = true.
Proof. vm_compute. repeat split. Qed.

(** ** What [float] refuses after a literal *)

Section FloatRefuses.

Lemma remove_underscores_plain (s : str) (prev : char) :
  no_underscore s = true -> prev <> 95 ->
  PyFloat.remove_underscores prev s = Some s.
Proof.
  revert prev. induction s as [|c s IH]; intros prev H Hp; simpl.
  - now destruct (N.eqb_spec prev 95).
  - simpl in H. apply andb_true_iff in H as [Hc Hs].
    destruct (N.eqb_spec c 95) as [->|Hc95]; [discriminate|].
    destruct (N.eqb_spec prev 95); [congruence|]. simpl.
    now rewrite IH.
Qed.

Lemma ends_without_app (p : char -> bool) (a t : str) :
  ends_without p t = true -> ends_without p (a ++ t) = true.
Proof.
  unfold ends_without. rewrite rev_app_distr.
  destruct (rev t); [discriminate | auto].
Qed.

(** Trimming leaves alone a text that neither begins nor ends with a
    character to trim. *)
Lemma trim_ends (p : char -> bool) (s : str) h r :
  s = h :: r -> p h = false -> ends_without p s = true ->
  rev (dropwhile p (rev (dropwhile p s))) = s.
Proof.
  intros -> Hh He. unfold ends_without in He. simpl dropwhile at 2.
  rewrite Hh. destruct (rev (h :: r)) as [|x t] eqn:E; [discriminate|].
  simpl. apply negb_true_iff in He. rewrite He, <- E.
  apply rev_involutive.
Qed.

Lemma tail_blocks_stops (t : str) :
  tail_blocks t = true -> stops_literal t /\ t <> [].
Proof.
  destruct t as [|c r]; [discriminate|]. cbn [tail_blocks].
  intros H. apply andb_true_iff in H as [H He].
  apply andb_true_iff in H as [Hd Hp].
  apply negb_true_iff in Hd, Hp.
  split; [|discriminate]. unfold stops_literal, no_digit_ahead.
  cbn [PyFloat.span_digits PyFloat.read_exponent]. rewrite Hd.
  repeat split; auto.
  destruct ((c =? 101) || (c =? 69)); [|reflexivity].
  destruct r as [|c2 r]; [reflexivity|].
  apply andb_true_iff in He as [He H45].
  apply andb_true_iff in He as [H2 H43].
  apply negb_true_iff in H2, H43, H45.
  cbn [PyFloat.read_sign]. rewrite H45, H43.
  cbn [PyFloat.span_digits]. now rewrite H2.
Qed.

(** A literal followed by such a tail is no number. *)
Lemma from_string_after_literal (l : literal) (t : str) :
  well_formed l = true -> refused_tail (PyFloat.transform t) = true ->
  PyFloat.from_string (render l ++ t) = None.
Proof.
  intros H R. pose proof (render_inert l H) as I.
  unfold refused_tail in R.
  apply andb_true_iff in R as [R Re].
  apply andb_true_iff in R as [Rb Ru].
  destruct (tail_blocks_stops _ Rb) as [St Ne].
  destruct (render_last l H) as (d & r & Hr & _).
  destruct (render l) as [|h r0] eqn:El; [discriminate|]. rewrite <- El in *.
  assert (Hh : PyFloat.is_ascii_space h = false).
  { rewrite El in I. cbn [forallb] in I.
    apply andb_true_iff in I as [I _]. unfold inert in I.
    apply andb_true_iff in I as [_ I]. now apply negb_true_iff in I. }
  unfold PyFloat.from_string, PyFloat.from_string_inner.
  rewrite (transform_app_inert _ _ I).
  rewrite remove_underscores_plain; [|
    unfold no_underscore; rewrite forallb_app; apply andb_true_iff; split;
    [|exact Ru] | discriminate].
  - unfold PyFloat.strip_ascii.
    rewrite (trim_ends PyFloat.is_ascii_space
               (render l ++ PyFloat.transform t) h
               (r0 ++ PyFloat.transform t));
      [| now rewrite El | exact Hh | now apply ends_without_app].
    unfold PyFloat.ascii_strtod.
    rewrite (dg_strtod_render l _ H St).
    destruct (PyFloat.transform t); [congruence | reflexivity].
  - rewrite forallb_forall in *. intros c Hc. specialize (I c Hc).
    unfold inert in I. apply andb_true_iff in I as [I _].
    now apply andb_true_iff in I as [_ I].
Qed.

End FloatRefuses.

(** ** White space and keys after a literal *)

Section Tails.

Lemma space_ascii_range (c : char) :
  Unicode.isspace c = true -> c < 127 ->
  (9 <= c /\ c <= 13) \/ (28 <= c /\ c <= 32).
Proof.
  unfold Unicode.isspace. intros H L.
  repeat (apply orb_true_iff in H as [H | H]);
    try (apply N.eqb_eq in H; lia);
    apply andb_true_iff in H as [H1 H2];
    apply N.leb_le in H1; apply N.leb_le in H2; lia.
Qed.

Lemma blank_range (c : char) :
  Unicode.isspace c = true ->
  (9 <= blank c /\ blank c <= 13) \/ (28 <= blank c /\ blank c <= 32).
Proof.
  intros H. unfold blank. destruct (N.ltb_spec c 127).
  - now apply space_ascii_range.
  - right. lia.
Qed.

Lemma range_facts (b : char) :
  (9 <= b /\ b <= 13) \/ (28 <= b /\ b <= 32) ->
  PyFloat.is_digit b = false /\ (b =? 46) = false /\
  (b =? 101) || (b =? 69) = false /\ (b =? 95) = false /\
  (b =? 43) = false /\ (b =? 45) = false.
Proof.
  intros H. unfold PyFloat.is_digit.
  repeat split;
    repeat match goal with
      | |- context [?a <=? ?b] => destruct (N.leb_spec a b)
      | |- context [?a =? ?b] => destruct (N.eqb_spec a b)
      end; cbn [andb orb]; try reflexivity; lia.
Qed.

Lemma transform_spaces (w r : str) :
  all_space w = true ->
  PyFloat.transform (w ++ r) = map blank w ++ PyFloat.transform r.
Proof.
  induction w as [|c w IH]; [reflexivity|].
  unfold all_space. cbn [forallb]. intros H.
  apply andb_true_iff in H as [Hc Hw].
  cbn [app map PyFloat.transform]. unfold blank at 1.
  destruct (c <? 127); rewrite ?Hc; now rewrite (IH Hw).
Qed.

(** White space before a refused tail: still refused. *)
Lemma refused_after_spaces (w k : str) :
  all_space w = true -> refused_tail k = true ->
  refused_tail (map blank w ++ k) = true.
Proof.
  intros Hw Hk. destruct w as [|c w]; [exact Hk|].
  unfold all_space in Hw. cbn [forallb] in Hw.
  apply andb_true_iff in Hw as [Hc Hw].
  destruct (range_facts _ (blank_range c Hc)) as (D & P & E & U & _).
  unfold refused_tail in *.
  apply andb_true_iff in Hk as [Hk Ke].
  apply andb_true_iff in Hk as [_ Ku].
  apply andb_true_iff; split; [apply andb_true_iff; split|].
  - cbn [map app tail_blocks]. now rewrite D, P, E.
  - unfold no_underscore in *. rewrite forallb_app.
    apply andb_true_iff. split; [|exact Ku].
    rewrite forallb_forall. intros x Hx.
    apply in_map_iff in Hx as (y & <- & Hy).
    assert (Sy : Unicode.isspace y = true).
    { destruct Hy as [<- | Hy]; [exact Hc|].
      unfold all_space in Hw. rewrite forallb_forall in Hw. auto. }
    destruct (range_facts _ (blank_range y Sy)) as (_ & _ & _ & -> & _).
    reflexivity.
  - now apply ends_without_app.
Qed.

(** A key character, then white space, then a tail of a unit symbol. *)
Lemma refused_after_key_char (c : char) (w k : str) :
  ascii_key_char c = true -> all_space w = true ->
  refused_tail k = true ->
  match k with x :: _ => negb (x =? 43) && negb (x =? 45) | [] => false end
  = true ->
  refused_tail (c :: map blank w ++ k) = true.
Proof.
  intros Hc Hw Hk Hs.
  pose proof (refused_after_spaces w k Hw Hk) as R.
  unfold ascii_key_char, lower_literal_char in Hc.
  apply andb_true_iff in Hc as [Hc Hsp].
  apply andb_true_iff in Hc as [Hc H95].
  apply andb_true_iff in Hc as [_ Hl].
  apply negb_true_iff in Hl.
  repeat (apply orb_false_iff in Hl as [Hl ?]).
  unfold refused_tail in *.
  apply andb_true_iff in R as [R Re].
  apply andb_true_iff in R as [Rb Ru].
  apply andb_true_iff; split; [apply andb_true_iff; split|].
  - cbn [tail_blocks]. rewrite Hl. cbn [negb andb].
    replace (c =? 46) with false by congruence. cbn [negb andb].
    destruct ((c =? 101) || (c =? 69)); [|reflexivity].
    destruct w as [|y w].
    + cbn [map app]. destruct k as [|x k]; [discriminate|].
      cbn [tail_blocks] in Rb.
      apply andb_true_iff in Rb as [Rb _].
      apply andb_true_iff in Rb as [-> _].
      apply andb_true_iff in Hs as [-> ->]. reflexivity.
    + unfold all_space in Hw. cbn [forallb] in Hw.
      apply andb_true_iff in Hw as [Hy _].
      destruct (range_facts _ (blank_range y Hy))
        as (D & _ & _ & _ & S1 & S2).
      cbn [map app]. now rewrite D, S1, S2.
  - unfold no_underscore in *. cbn [forallb]. now rewrite H95.
  - now apply (ends_without_app _ [c]).
Qed.

Lemma transform_foreign (c : char) (r : str) :
  foreign_char c = true -> PyFloat.transform (c :: r) = [63].
Proof.
  unfold foreign_char. intros H.
  apply andb_true_iff in H as [H Hd].
  apply andb_true_iff in H as [Hl Hs].
  apply negb_true_iff in Hl, Hs.
  cbn [PyFloat.transform]. rewrite Hl, Hs.
  now destruct (Unicode.todecimal c).
Qed.

Lemma transform_ascii (c : char) (r : str) :
  ascii_key_char c = true ->
  PyFloat.transform (c :: r) = c :: PyFloat.transform r.
Proof.
  unfold ascii_key_char. intros H.
  apply andb_true_iff in H as [H _].
  apply andb_true_iff in H as [H _].
  apply andb_true_iff in H as [H _].
  cbn [PyFloat.transform]. now rewrite H.
Qed.

(** Checked on the tables: the one-character keys are key characters,
    and every unit symbol leaves a refused tail. *)
Lemma tables_checked :
  forallb key_char prefix_chars = true /\
  key_char 82 = true /\
  forallb unit_tail (keys units) = true.
Proof. vm_compute. repeat split. Qed.

Lemma prefix_key_char (c : char) (m : Float64.t) :
  lookup [c] prefixes = Some m -> key_char c = true.
Proof.
  intros H. apply prefix_char_in in H.
  destruct tables_checked as (K & _). rewrite forallb_forall in K. auto.
Qed.

Lemma unit_key_tail (k : str) (name : string) :
  In (k, name) units ->
  refused_tail (PyFloat.transform k) = true /\
  match PyFloat.transform k with
  | x :: _ => negb (x =? 43) && negb (x =? 45)
  | [] => false
  end = true.
Proof.
  intros H. apply (in_map fst) in H.
  destruct tables_checked as (_ & _ & K). rewrite forallb_forall in K.
  specialize (K _ H). unfold unit_tail in K.
  now apply andb_true_iff in K.
Qed.

(** A literal, white space and a unit symbol: no number. *)
Lemma float_refuses_unit (l : literal) (w k : str) (name : string) :
  well_formed l = true -> all_space w = true -> In (k, name) units ->
  PyFloat.from_string (render l ++ w ++ k) = None.
Proof.
  intros H Hw Hk. apply from_string_after_literal; [exact H|].
  rewrite (transform_spaces _ _ Hw).
  apply refused_after_spaces; [exact Hw|].
  apply (unit_key_tail k name Hk).
Qed.

(** A literal, a one-character prefix, white space and a unit symbol: no
    number. *)
Lemma float_refuses_prefix_unit (l : literal) (c : char) (m : Float64.t)
  (w k : str) (name : string) :
  well_formed l = true -> lookup [c] prefixes = Some m ->
  all_space w = true -> In (k, name) units ->
  PyFloat.from_string (render l ++ [c] ++ w ++ k) = None.
Proof.
  intros H Hc Hw Hk. apply from_string_after_literal; [exact H|].
  apply prefix_key_char in Hc. unfold key_char in Hc.
  apply orb_true_iff in Hc as [Hc | Hc].
  - cbn [app]. rewrite (transform_ascii _ _ Hc), (transform_spaces _ _ Hw).
    destruct (unit_key_tail k name Hk) as [R S].
    now apply refused_after_key_char.
  - cbn [app]. now rewrite (transform_foreign _ _ Hc).
Qed.

End Tails.

(** ** The stages on a literal *)

Section OnLiterals.

Lemma digits_text_chars (ds : list N) :
  all_digits ds = true ->
  forallb PyFloat.is_digit (digits_text ds) = true.
Proof.
  induction ds as [|d ds IH]; [reflexivity|].
  unfold all_digits, digits_text. cbn [forallb map].
  intros H. apply andb_true_iff in H as [Hd Hs]. apply N.ltb_lt in Hd.
  destruct (digit_char d Hd) as (-> & _). now apply IH.
Qed.

Lemma digit_is_lower_literal (s : str) :
  forallb PyFloat.is_digit s = true ->
  forallb lower_literal_char s = true.
Proof.
  rewrite !forallb_forall. intros H c Hc. unfold lower_literal_char.
  now rewrite (H c Hc).
Qed.

Lemma lower_is_literal (s : str) :
  forallb lower_literal_char s = true -> forallb literal_char s = true.
Proof.
  rewrite !forallb_forall. intros H c Hc. unfold literal_char.
  fold (lower_literal_char c). now rewrite (H c Hc).
Qed.

Lemma render_lower_chars (l : literal) :
  well_formed l = true -> no_upper_exp l = true ->
  forallb lower_literal_char (render l) = true.
Proof.
  intros H U. destruct (well_formed_parts l H) as (Hi & Hf & _ & He).
  unfold render, frac_digits, no_upper_exp in *.
  rewrite !forallb_app.
  apply andb_true_iff; split; [|apply andb_true_iff; split;
                                 [|apply andb_true_iff; split]].
  - now destruct (l_sign l) as [[|]|].
  - now apply digit_is_lower_literal, digits_text_chars.
  - destruct (l_frac l); [|reflexivity]. unfold frac_text.
    rewrite forallb_app. apply andb_true_iff. split; [reflexivity|].
    now apply digit_is_lower_literal, digits_text_chars.
  - destruct (l_exp l) as [[[[|] sg] ds]|]; try discriminate;
      [|reflexivity].
    destruct He as [He _]. unfold exp_text. rewrite !forallb_app.
    apply andb_true_iff; split; [|apply andb_true_iff; split].
    + reflexivity.
    + now destruct sg as [[|]|].
    + now apply digit_is_lower_literal, digits_text_chars.
Qed.

Lemma render_chars (l : literal) :
  well_formed l = true -> forallb literal_char (render l) = true.
Proof.
  intros H. destruct (well_formed_parts l H) as (Hi & Hf & _ & He).
  unfold render, frac_digits in *.
  rewrite !forallb_app.
  apply andb_true_iff; split; [|apply andb_true_iff; split;
                                 [|apply andb_true_iff; split]].
  - now destruct (l_sign l) as [[|]|].
  - now apply lower_is_literal, digit_is_lower_literal, digits_text_chars.
  - destruct (l_frac l); [|reflexivity]. unfold frac_text.
    rewrite forallb_app. apply andb_true_iff. split; [reflexivity|].
    now apply lower_is_literal, digit_is_lower_literal, digits_text_chars.
  - destruct (l_exp l) as [[[up sg] ds]|]; [|reflexivity].
    destruct He as [He _]. unfold exp_text. rewrite !forallb_app.
    apply andb_true_iff; split; [|apply andb_true_iff; split].
    + now destruct up.
    + now destruct sg as [[|]|].
    + now apply lower_is_literal, digit_is_lower_literal,
        digits_text_chars.
Qed.

Lemma literal_char_range (c : char) :
  literal_char c = true -> 43 <= c /\ c <= 101.
Proof.
  unfold literal_char, PyFloat.is_digit. intros H.
  repeat (apply orb_true_iff in H as [H | H]);
    try (apply N.eqb_eq in H; lia).
  apply andb_true_iff in H as [H1 H2].
  apply N.leb_le in H1. apply N.leb_le in H2. lia.
Qed.

Lemma printable_not_space (c : char) :
  33 <= c -> c <= 126 -> Unicode.isspace c = false.
Proof.
  intros L U. unfold Unicode.isspace.
  repeat (apply orb_false_iff; split);
    try (apply N.eqb_neq; lia);
    apply andb_false_iff;
    ((left; apply N.leb_gt; lia) || (right; apply N.leb_gt; lia)).
Qed.

Lemma literal_char_not_space (c : char) :
  literal_char c = true -> Unicode.isspace c = false.
Proof.
  intros H. apply literal_char_range in H.
  apply printable_not_space; lia.
Qed.

Lemma key_char_not_space (c : char) :
  key_char c = true -> Unicode.isspace c = false.
Proof.
  unfold key_char, ascii_key_char, foreign_char. intros H.
  apply orb_true_iff in H as [H | H].
  - apply andb_true_iff in H as [_ H]. now apply negb_true_iff in H.
  - apply andb_true_iff in H as [H _].
    apply andb_true_iff in H as [_ H]. now apply negb_true_iff in H.
Qed.

Lemma key_char_not_literal (d : char) :
  PyFloat.is_digit d = true \/ d = 46 -> key_char d = false.
Proof.
  intros H. unfold key_char, ascii_key_char, foreign_char,
    lower_literal_char.
  assert (L : (d <? 127) = true).
  { apply N.ltb_lt. destruct H as [H | ->]; [|lia].
    unfold PyFloat.is_digit in H. apply andb_true_iff in H as [_ H].
    apply N.leb_le in H. lia. }
  rewrite L. destruct H as [-> | ->]; reflexivity.
Qed.

(** Trimming a text that is followed by white space only. *)
Lemma strip_then_spaces (x w : str) h r :
  x = h :: r -> Unicode.isspace h = false ->
  ends_without Unicode.isspace x = true -> all_space w = true ->
  PyStr.strip (x ++ w) = x.
Proof.
  intros Hx Hh He Hw.
  change (x ++ w) with ([] ++ x ++ w).
  rewrite strip_surrounded; [|reflexivity | exact Hw].
  now apply (trim_ends Unicode.isspace x h r).
Qed.

Lemma render_head (l : literal) :
  well_formed l = true ->
  exists h r, render l = h :: r /\ Unicode.isspace h = false.
Proof.
  intros H. pose proof (render_chars l H) as C.
  destruct (render_last l H) as (d & t & Hr & _).
  destruct (render l) as [|h r]; [discriminate|].
  exists h, r. split; [reflexivity|].
  cbn [forallb] in C. apply andb_true_iff in C as [C _].
  now apply literal_char_not_space.
Qed.

Lemma strip_literal (l : literal) (w : str) :
  well_formed l = true -> all_space w = true ->
  PyStr.strip (render l ++ w) = render l.
Proof.
  intros H Hw. destruct (render_head l H) as (h & r & Hx & Hh).
  apply (strip_then_spaces _ _ h r); auto.
  destruct (render_last l H) as (d & t & Hr & Hd).
  unfold ends_without. rewrite Hr. apply negb_true_iff.
  destruct Hd as [Hd | ->]; [|reflexivity].
  unfold PyFloat.is_digit in Hd. apply andb_true_iff in Hd as [H1 H2].
  apply N.leb_le in H1. apply N.leb_le in H2.
  apply printable_not_space; lia.
Qed.

Lemma strip_literal_prefix (l : literal) (c : char) (w : str) :
  well_formed l = true -> key_char c = true -> all_space w = true ->
  PyStr.strip ((render l ++ [c]) ++ w) = render l ++ [c].
Proof.
  intros H Hc Hw. destruct (render_head l H) as (h & r & Hx & Hh).
  apply (strip_then_spaces _ _ h (r ++ [c])); auto.
  - now rewrite Hx.
  - unfold ends_without. rewrite rev_app_distr. cbn [rev app].
    apply negb_true_iff. now apply key_char_not_space.
Qed.

(** The magnitude stage on a literal followed by a one-character prefix. *)
Lemma magnitude_trailing (l : literal) (c : char) (m : Float64.t) :
  well_formed l = true -> lookup [c] prefixes = Some m ->
  magnitude (render l ++ [c]) = inr (Float64.mul (literal_value l) m).
Proof.
  intros H Hc. unfold magnitude.
  rewrite last_char_app, Hc, removelast_last.
  unfold float_times, float. now rewrite (from_string_render l H).
Qed.

Lemma infix_keys_checked :
  forallb key_outside_literal (keys infixes) = true.
Proof. vm_compute. reflexivity. Qed.

(** The magnitude stage on a literal alone: neither prefix nor infix. *)
Lemma magnitude_plain (l : literal) :
  well_formed l = true -> no_upper_exp l = true ->
  magnitude (render l) = inr (Float64.mul (literal_value l) Float64.one).
Proof.
  intros H U. destruct (render_last l H) as (d & r & Hr & Hd).
  unfold magnitude, PyStr.last_char. rewrite Hr. cbn [hd_error].
  destruct (lookup [d] prefixes) as [m|] eqn:Hp.
  { apply prefix_key_char in Hp.
    now rewrite (key_char_not_literal d Hd) in Hp. }
  unfold first_infix. rewrite find_all_false.
  - unfold float_times, float. now rewrite (from_string_render l H).
  - intros kv Hk. destruct (PyStr.contains (fst kv) (render l)) eqn:C;
      [|reflexivity].
    apply contains_iff in C as (a & b & E).
    pose proof infix_keys_checked as K. rewrite forallb_forall in K.
    specialize (K _ (in_map fst _ _ Hk)). unfold key_outside_literal in K.
    apply existsb_exists in K as (x & Hx & Nx).
    pose proof (render_lower_chars l H U) as L.
    rewrite forallb_forall in L. rewrite (L x) in Nx; [discriminate|].
    rewrite E. apply in_or_app. right. apply in_or_app. now left.
Qed.

End OnLiterals.

(** ** Numbers with prefixes and units *)

(** X6.  A decimal literal followed by a one-character key of the prefix
    table parses to the value of the literal times the multiplier of the
    key, without a unit: [3k], [4.7M], [1e3u]. *)
Theorem literal_with_prefix (l : literal) (c : char) (m : Float64.t) :
  well_formed l = true -> lookup [c] prefixes = Some m ->
  value_parser (PyStr (render l ++ [c]))
  = inr (Float64.mul (literal_value l) m, None).
Proof. apply single_char_prefix_trails. Qed.

(** X7.  A decimal literal written without the upper-case [E], then any
    white space, then a symbol of the units table parses to the value of
    the literal times one, with the unit of the symbol: [100R], [10 A],
    [1e3 Hz]. *)
Theorem literal_with_unit (l : literal) (w test_unit : str) (name : string) :
  well_formed l = true -> no_upper_exp l = true ->
  all_space w = true -> In (test_unit, name) units ->
  value_parser (PyStr (render l ++ w ++ test_unit))
  = inr (Float64.mul (literal_value l) Float64.one, Some name).
Proof.
  intros H U Hw Hk. unfold value_parser, float.
  rewrite (float_refuses_unit l w test_unit name H Hw Hk).
  unfold on_value_error. rewrite app_assoc.
  rewrite (strip_unit_app _ test_unit name Hk).
  rewrite (strip_literal l w H Hw).
  now rewrite (magnitude_plain l H U).
Qed.

(** X8.  A decimal literal, a one-character key of the prefix table, any
    white space and a symbol of the units table parse to the value of the
    literal times the multiplier of the key, with the unit of the
    symbol: [10mA], [103.013u F], [4.7k] and an ohm sign. *)
Theorem literal_with_prefix_and_unit (l : literal) (c : char)
  (m : Float64.t) (w test_unit : str) (name : string) :
  well_formed l = true -> lookup [c] prefixes = Some m ->
  all_space w = true -> In (test_unit, name) units ->
  value_parser (PyStr (render l ++ [c] ++ w ++ test_unit))
  = inr (Float64.mul (literal_value l) m, Some name).
Proof.
  intros H Hc Hw Hk. unfold value_parser, float.
  rewrite (float_refuses_prefix_unit l c m w test_unit name H Hc Hw Hk).
  unfold on_value_error.
  replace (render l ++ [c] ++ w ++ test_unit)
    with (((render l ++ [c]) ++ w) ++ test_unit)
    by now rewrite <- !app_assoc.
  rewrite (strip_unit_app _ test_unit name Hk).
  rewrite (strip_literal_prefix l c w H (prefix_key_char c m Hc) Hw).
  now rewrite (magnitude_trailing l c m H Hc).
Qed.

(** ** An infix between literal characters *)

Section InfixBetween.

Lemma infix_tables_checked :
  forallb infix_key_shape (keys infixes) = true /\
  forallb (ends_without lower_literal_char) (keys units) = true.
Proof. vm_compute. split; reflexivity. Qed.

Lemma In_lookup_infixes (k : str) (m : Float64.t) :
  In (k, m) infixes -> lookup k infixes = Some m.
Proof.
  intros H. vm_compute in H.
  repeat (destruct H as [H | H]; [injection H as <- <-; reflexivity|]).
  destruct H.
Qed.

Lemma find_sub_char (c : char) (a b : str) :
  ~ In c a -> PyStr.find_sub [c] (a ++ c :: b) = Some (a, b).
Proof.
  induction a as [|x a IH]; intros N.
  - cbn [app PyStr.find_sub PyStr.startswith].
    now rewrite N.eqb_refl.
  - cbn [app PyStr.find_sub PyStr.startswith].
    destruct (N.eqb_spec c x) as [->|]; [exfalso; apply N; now left|].
    cbn [andb]. rewrite IH; [reflexivity|].
    intros H. apply N. now right.
Qed.

Lemma find_sub_char_none (c : char) (b : str) :
  ~ In c b -> PyStr.find_sub [c] b = None.
Proof.
  induction b as [|x b IH]; intros N; [reflexivity|].
  cbn [PyStr.find_sub PyStr.startswith].
  destruct (N.eqb_spec c x) as [->|]; [exfalso; apply N; now left|].
  cbn [andb]. rewrite IH; [reflexivity|].
  intros H. apply N. now right.
Qed.

Lemma lower_literal_not_prefix (d : char) :
  lower_literal_char d = true -> lookup [d] prefixes = None.
Proof.
  intros H. destruct (lookup [d] prefixes) as [m|] eqn:E; [|reflexivity].
  apply prefix_key_char in E.
  unfold key_char, ascii_key_char, foreign_char in E. rewrite H in E.
  assert (L : (d <? 127) = true).
  { apply N.ltb_lt. unfold lower_literal_char, PyFloat.is_digit in H.
    repeat (apply orb_true_iff in H as [H | H]);
      try (apply N.eqb_eq in H; lia).
    apply andb_true_iff in H as [_ H]. apply N.leb_le in H. lia. }
  rewrite L in E. discriminate.
Qed.

(** No unit symbol ends a text that ends with a literal character. *)
Lemma no_unit_after_literal_char (s : str) (d : char) (r : str) :
  rev s = d :: r -> lower_literal_char d = true ->
  strip_unit s = (None, s).
Proof.
  intros Hs Hd. unfold strip_unit, strip_unit_in.
  rewrite find_all_false; [reflexivity|].
  intros [k name] Hk. cbn [fst].
  destruct (PyStr.endswith s k) eqn:E; [|reflexivity].
  destruct infix_tables_checked as [_ K]. rewrite forallb_forall in K.
  specialize (K k (in_map fst _ _ Hk)). unfold ends_without in K.
  unfold PyStr.endswith in E. rewrite Hs in E.
  destruct (rev k) as [|x t]; [discriminate|].
  cbn [PyStr.startswith] in E. apply andb_true_iff in E as [E _].
  apply N.eqb_eq in E. subst x. now rewrite Hd in K.
Qed.

(** The infix branch on [a], a one-character key and [b], when [a] and
    [b] are made of literal characters: the key stands for the point. *)
Lemma magnitude_infix_between (a b : str) (c : char) (m : Float64.t) :
  In ([c], m) infixes ->
  forallb lower_literal_char a = true ->
  forallb lower_literal_char b = true -> b <> [] ->
  magnitude (a ++ [c] ++ b) = float_times (a ++ lit "." ++ b) m.
Proof.
  intros Hin Ha Hb Hne.
  destruct infix_tables_checked as [K _]. rewrite forallb_forall in K.
  assert (Nc : lower_literal_char c = false).
  { specialize (K [c] (in_map fst _ _ Hin)).
    unfold infix_key_shape in K. cbn [filter] in K.
    now destruct (lower_literal_char c). }
  assert (Na : ~ In c a).
  { intros H. rewrite forallb_forall in Ha. now rewrite (Ha c H) in Nc. }
  assert (Nb : ~ In c b).
  { intros H. rewrite forallb_forall in Hb. now rewrite (Hb c H) in Nc. }
  (* the last character *)
  destruct (exists_last Hne) as (b' & d & Eb).
  assert (Hd : lower_literal_char d = true).
  { rewrite forallb_forall in Hb. apply Hb. rewrite Eb.
    apply in_or_app. right. now left. }
  assert (Hl : PyStr.last_char (a ++ [c] ++ b) = Some d).
  { rewrite Eb, !app_assoc. apply last_char_app. }
  (* the key found *)
  assert (Hf : first_infix (a ++ [c] ++ b) = Some ([c], m)).
  { unfold first_infix.
    destruct (find _ infixes) as [[k m']|] eqn:F.
    - apply find_some in F as [Fin Fk]. cbn [fst] in Fk.
      apply contains_iff in Fk as (u & v & E).
      assert (Hk : forall h, In h k -> lower_literal_char h = true \/ h = c).
      { intros h Hh.
        assert (I : In h (a ++ [c] ++ b)).
        { rewrite E. apply in_or_app. right. apply in_or_app. now left. }
        apply in_app_or in I as [I | I].
        - left. rewrite forallb_forall in Ha. auto.
        - apply in_app_or in I as [[<- | []] | I]; [now right|].
          left. rewrite forallb_forall in Hb. auto. }
      specialize (K k (in_map fst _ _ Fin)). unfold infix_key_shape in K.
      assert (Hn : forall h,
                 In h (filter (fun h => negb (lower_literal_char h)) k) ->
                 h = c).
      { intros h Hh. apply filter_In in Hh as [Hh Nh].
        apply negb_true_iff in Nh.
        destruct (Hk h Hh); congruence. }
      assert (Ek : k = [c]).
      { destruct (filter (fun h => negb (lower_literal_char h)) k)
          as [|x [|y t]] eqn:Ef; [discriminate| |].
        - destruct k as [|z [|z' k]]; try discriminate.
          cbn [filter] in Ef.
          destruct (negb (lower_literal_char z)); [|discriminate].
          injection Ef as ->. now rewrite (Hn x (or_introl eq_refl)).
        - apply negb_true_iff, N.eqb_neq in K.
          rewrite (Hn x (or_introl eq_refl)) in K.
          rewrite (Hn y (or_intror (or_introl eq_refl))) in K.
          congruence. }
      subst k. apply In_lookup_infixes in Fin.
      rewrite (In_lookup_infixes _ _ Hin) in Fin. now injection Fin as ->.
    - apply (find_none _ _ F) in Hin. cbn [fst] in Hin.
      assert (C : PyStr.contains [c] (a ++ [c] ++ b) = true)
        by (apply contains_iff; now exists a, b).
      congruence. }
  destruct (magnitude_infix _ d [c] m Hl (lower_literal_not_prefix d Hd) Hf)
    as (x & y & Fs & ->).
  cbn [app] in Fs. rewrite (find_sub_char c a b Na) in Fs.
  injection Fs as <- <-. unfold upto.
  now rewrite (find_sub_char_none c b Nb).
Qed.

End InfixBetween.

Section InfixTheorems.

Lemma infix_chars_checked :
  forallb (fun k => match k with [c] => key_char c | _ => true end)
    (keys infixes) = true.
Proof. vm_compute. reflexivity. Qed.

Lemma infix_key_char (c : char) (m : Float64.t) :
  In ([c], m) infixes -> key_char c = true.
Proof.
  intros H. pose proof infix_chars_checked as K.
  rewrite forallb_forall in K. exact (K [c] (in_map fst _ _ H)).
Qed.

Lemma ascii_key_char_facts (c : char) :
  ascii_key_char c = true ->
  PyFloat.is_digit c = false /\ (c =? 46) = false /\
  (c =? 101) = false /\ (c =? 95) = false.
Proof.
  unfold ascii_key_char, lower_literal_char. intros H.
  apply andb_true_iff in H as [H _].
  apply andb_true_iff in H as [H H95].
  apply andb_true_iff in H as [_ Hl].
  apply negb_true_iff in Hl, H95.
  repeat (apply orb_false_iff in Hl as [Hl ?]).
  now repeat split.
Qed.

Lemma digit_not_ascii_space (d : char) :
  PyFloat.is_digit d = true -> PyFloat.is_ascii_space d = false.
Proof.
  unfold PyFloat.is_digit, PyFloat.is_ascii_space. intros H.
  apply andb_true_iff in H as [H1 H2].
  apply N.leb_le in H1. apply N.leb_le in H2.
  apply orb_false_iff. split.
  - apply andb_false_iff. right. apply N.leb_gt. lia.
  - apply N.eqb_neq. lia.
Qed.

(** A key character other than [E] and digits after it: refused. *)
Lemma refused_key_digits (c : char) (fp : list N) :
  key_char c = true -> c <> 69 -> all_digits fp = true -> fp <> [] ->
  refused_tail (PyFloat.transform (c :: digits_text fp)) = true.
Proof.
  intros Hc N69 Hf Hne. unfold key_char in Hc.
  apply orb_true_iff in Hc as [Hc | Hc];
    [|now rewrite (transform_foreign _ _ Hc)].
  rewrite (transform_ascii _ _ Hc).
  rewrite (transform_inert _ (digits_text_inert fp Hf)).
  destruct (ascii_key_char_facts c Hc) as (D & P & E & U).
  unfold refused_tail.
  apply andb_true_iff; split; [apply andb_true_iff; split|].
  - cbn [tail_blocks]. rewrite D, P, E.
    now destruct (N.eqb_spec c 69).
  - unfold no_underscore. cbn [forallb]. rewrite U. cbn [negb andb].
    pose proof (digits_text_inert fp Hf) as I.
    rewrite forallb_forall in *. intros x Hx. specialize (I x Hx).
    unfold inert in I. apply andb_true_iff in I as [I _].
    now apply andb_true_iff in I as [_ I].
  - destruct (rev_digits_text fp [c] Hf Hne) as (d & r & Hr & Hd).
    unfold ends_without. change (c :: digits_text fp)
      with ([c] ++ digits_text fp). rewrite Hr.
    apply negb_true_iff. now apply digit_not_ascii_space.
Qed.

Lemma digit_lower_literal (d : char) :
  PyFloat.is_digit d = true -> lower_literal_char d = true.
Proof. intros H. unfold lower_literal_char. now rewrite H. Qed.

Lemma sign_digits_lower (sg : option bool) (ds : list N) :
  all_digits ds = true ->
  forallb lower_literal_char (sign_text sg ++ digits_text ds) = true.
Proof.
  intros H. rewrite forallb_app. apply andb_true_iff. split.
  - now destruct sg as [[|]|].
  - now apply digit_is_lower_literal, digits_text_chars.
Qed.

Lemma digits_text_nonempty (ds : list N) : ds <> [] -> digits_text ds <> [].
Proof. now destruct ds. Qed.

End InfixTheorems.

(** X9.  Digits, a one-character key of the infix table other than [E],
    and digits again, with an optional sign in front, parse to the
    number that has the point where the key stands, times the multiplier
    of the key, without a unit: [3k3], [2M2], [4n7], [3R3], [-1u5]. *)
Theorem infix_between_digits (sg : option bool) (ip fp : list N)
  (c : char) (m : Float64.t) :
  all_digits ip = true -> ip <> [] -> all_digits fp = true -> fp <> [] ->
  lookup [c] infixes = Some m -> c <> 69 ->
  value_parser
    (PyStr (sign_text sg ++ digits_text ip ++ [c] ++ digits_text fp))
  = inr (Float64.mul
           (literal_value {| l_sign := sg; l_int := ip;
                             l_frac := Some fp; l_exp := None |}) m,
         None).
Proof.
  intros Hi Ni Hf Nf Hc N69. apply lookup_in in Hc.
  set (l0 := {| l_sign := sg; l_int := ip; l_frac := None;
                l_exp := None |}).
  set (l := {| l_sign := sg; l_int := ip; l_frac := Some fp;
               l_exp := None |}).
  assert (W0 : well_formed l0 = true).
  { unfold well_formed, frac_digits. cbn [l0 l_int l_frac l_exp].
    rewrite Hi, app_nil_r. now destruct ip. }
  assert (W : well_formed l = true).
  { unfold well_formed, frac_digits. cbn [l l_int l_frac l_exp].
    rewrite Hi, Hf, length_app. now destruct ip. }
  assert (E0 : sign_text sg ++ digits_text ip ++ [c] ++ digits_text fp
               = render l0 ++ c :: digits_text fp).
  { unfold render. cbn [l0 l_sign l_int l_frac l_exp frac_text exp_text].
    now rewrite !app_nil_r, <- app_assoc. }
  unfold value_parser, float. rewrite E0.
  rewrite (from_string_after_literal l0 _ W0
             (refused_key_digits c fp (infix_key_char c m Hc) N69 Hf Nf)).
  rewrite <- E0. unfold on_value_error.
  destruct (rev_digits_text fp (sign_text sg ++ digits_text ip ++ [c])
              Hf Nf) as (d & r & Hr & Hd).
  rewrite <- !app_assoc in Hr.
  rewrite (no_unit_after_literal_char _ d r Hr (digit_lower_literal d Hd)).
  rewrite (app_assoc (sign_text sg)).
  rewrite (magnitude_infix_between _ _ c m Hc (sign_digits_lower sg ip Hi)
             (digit_is_lower_literal _ (digits_text_chars fp Hf))
             (digits_text_nonempty fp Nf)).
  replace ((sign_text sg ++ digits_text ip) ++ lit "." ++ digits_text fp)
    with (render l).
  - unfold float_times, float. now rewrite (from_string_render l W).
  - unfold render. cbn [l l_sign l_int l_frac l_exp frac_text exp_text].
    now rewrite app_nil_r, <- app_assoc.
Qed.

Lemma infix_between_digits_witness :
  value_parser (PyStr (lit "-4n7"))
  = inr (Float64.mul (Float64.of_decimal true 47 (-1)) (dec 1 (-9)), None).
Proof.
  exact (infix_between_digits (Some true) [4] [7] 110 (dec 1 (-9))
           eq_refl ltac:(discriminate) eq_refl ltac:(discriminate)
           eq_refl ltac:(discriminate)).
Defined.

(** X10.  An upper-case [E] between digits is an exponent when the text
    ends there, and the exa multiplier once a unit symbol follows: with
    digits [a] and [b], the text [aEb] parses to a times ten to the b,
    and [aEb] followed by white space and a unit symbol parses to the
    number [a.b] times 1e18, with that unit. *)
Theorem upper_E_between_digits (sg : option bool) (a b : list N) :
  all_digits a = true -> a <> [] -> all_digits b = true -> b <> [] ->
  value_parser
    (PyStr (sign_text sg ++ digits_text a ++ lit "E" ++ digits_text b))
  = inr (literal_value {| l_sign := sg; l_int := a; l_frac := None;
                          l_exp := Some (true, None, b) |}, None) /\
  forall w test_unit name,
    all_space w = true -> In (test_unit, name) units ->
    value_parser
      (PyStr ((sign_text sg ++ digits_text a ++ lit "E" ++ digits_text b)
                ++ w ++ test_unit))
    = inr (Float64.mul
             (literal_value {| l_sign := sg; l_int := a;
                               l_frac := Some b; l_exp := None |})
             (Float64.e10 18),
           Some name).
Proof.
  intros Ha Na Hb Nb.
  set (l0 := {| l_sign := sg; l_int := a; l_frac := None;
                l_exp := Some (true, None, b) |}).
  set (l := {| l_sign := sg; l_int := a; l_frac := Some b;
               l_exp := None |}).
  assert (W0 : well_formed l0 = true).
  { unfold well_formed, frac_digits. cbn [l0 l_int l_frac l_exp].
    rewrite Ha, Hb, app_nil_r. destruct a; [congruence|].
    now destruct b. }
  assert (W : well_formed l = true).
  { unfold well_formed, frac_digits. cbn [l l_int l_frac l_exp].
    rewrite Ha, Hb, length_app. now destruct a. }
  change (sign_text sg ++ digits_text a ++ lit "E" ++ digits_text b)
    with (render l0).
  split.
  - unfold value_parser, float. now rewrite (from_string_render l0 W0).
  - intros w k name Hw Hk. unfold value_parser, float.
    rewrite (float_refuses_unit l0 w k name W0 Hw Hk).
    unfold on_value_error. rewrite app_assoc.
    rewrite (strip_unit_app _ k name Hk), (strip_literal l0 w W0 Hw).
    change (render l0)
      with (sign_text sg ++ digits_text a ++ [69] ++ digits_text b).
    rewrite (app_assoc (sign_text sg)).
    assert (I : In ([69], Float64.e10 18) infixes)
      by (vm_compute; tauto).
    pose proof (magnitude_infix_between _ _ 69 _ I
                  (sign_digits_lower sg a Ha)
                  (digit_is_lower_literal _ (digits_text_chars b Hb))
                  (digits_text_nonempty b Nb)) as M.
    match goal with
    | |- context [magnitude ?x] =>
        replace (magnitude x) with (float_times (render l) (Float64.e10 18))
    end.
    + unfold float_times, float. now rewrite (from_string_render l W).
    + symmetry. etransitivity; [exact M|]. f_equal. unfold render.
      cbn [l l_sign l_int l_frac l_exp frac_text exp_text].
      now rewrite app_nil_r, <- app_assoc.
Qed.

Lemma upper_E_between_digits_witness :
  value_parser (PyStr (lit "1E3")) = inr (dec 1 3, None) /\
  value_parser (PyStr (lit "1E3" ++ lit " " ++ lit "V"))
  = inr (Float64.mul (dec 13 (-1)) (Float64.e10 18), Some "volt"%string).
Proof.
  assert (I : In (lit "V", "volt"%string) units)
    by (unfold units; simpl; tauto).
  pose proof (upper_E_between_digits None [1] [3]
                eq_refl ltac:(discriminate) eq_refl ltac:(discriminate))
    as [H1 H2].
  split; [exact H1|].
  exact (H2 (lit " ") (lit "V") "volt"%string eq_refl I).
Defined.

(** ** Texts without a number *)

Section NoNumber.

Lemma dropwhile_head (p : char -> bool) (s : str) h r :
  dropwhile p s = h :: r -> In h s /\ p h = false.
Proof.
  induction s as [|c s IH]; [discriminate|]. cbn [dropwhile].
  destruct (p c) eqn:E.
  - intros H. destruct (IH H). split; [now right | assumption].
  - intros [= <- <-]. split; [now left | assumption].
Qed.

Lemma dropwhile_keeps_last (p : char -> bool) (l : str) h :
  p h = false -> exists l', dropwhile p (l ++ [h]) = l' ++ [h].
Proof.
  intros Hh. induction l as [|c l [l' IH]]; cbn [app dropwhile].
  - rewrite Hh. now exists [].
  - destruct (p c); [now exists l' | now exists (c :: l)].
Qed.

(** What trimming leaves is empty or begins with the first character
    that is not trimmed. *)
Lemma strip_ascii_head (s : str) :
  PyFloat.strip_ascii s = [] \/
  exists h r, PyFloat.strip_ascii s = h :: r /\ In h s.
Proof.
  unfold PyFloat.strip_ascii.
  destruct (dropwhile PyFloat.is_ascii_space s) as [|h r] eqn:E;
    [now left | right].
  destruct (dropwhile_head _ _ _ _ E) as [Hin Hh].
  cbn [rev].
  destruct (dropwhile_keeps_last PyFloat.is_ascii_space (rev r) h Hh)
    as [l' ->].
  rewrite rev_app_distr. cbn [rev app]. now exists h, (rev l').
Qed.

Lemma ascii_strtod_blocked (h : char) (r : str) :
  start_blocked h = true -> PyFloat.ascii_strtod (h :: r) = None.
Proof.
  unfold start_blocked. intros H.
  repeat (apply andb_true_iff in H as [H ?]).
  repeat match goal with
         | X : negb _ = true |- _ => apply negb_true_iff in X
         end.
  unfold PyFloat.ascii_strtod, PyFloat.dg_strtod,
    PyFloat.parse_inf_or_nan.
  cbn [PyFloat.read_sign PyFloat.span_digits].
  repeat match goal with X : _ = false |- _ => rewrite X end.
  cbn [PyFloat.span_digits app]. 
  repeat match goal with X : _ = false |- _ => rewrite X end.
  cbn [lit map list_ascii_of_string PyFloat.ci_match].
  change (N_of_ascii "i"%char) with 105. change (N_of_ascii "n"%char) with 110.
  repeat match goal with X : _ = false |- _ => rewrite X end.
  reflexivity.
Qed.

(** A text in which no character can begin a number is no number. *)
Lemma from_string_blocked (s : str) :
  forallb start_blocked (PyFloat.transform s) = true ->
  PyFloat.from_string s = None.
Proof.
  intros H. unfold PyFloat.from_string.
  rewrite remove_underscores_plain; [| |discriminate].
  - unfold PyFloat.from_string_inner.
    destruct (strip_ascii_head (PyFloat.transform s))
      as [-> | (h & r & -> & Hin)]; [reflexivity|].
    rewrite ascii_strtod_blocked; [reflexivity|].
    rewrite forallb_forall in H. auto.
  - unfold no_underscore. rewrite forallb_forall in *. intros c Hc.
    specialize (H c Hc). unfold start_blocked in H.
    repeat (apply andb_true_iff in H as [H ?]). assumption.
Qed.

Lemma blank_start_blocked (w : str) :
  all_space w = true -> forallb start_blocked (map blank w) = true.
Proof.
  unfold all_space. rewrite !forallb_forall. intros H x Hx.
  apply in_map_iff in Hx as (c & <- & Hc).
  pose proof (blank_range c (H c Hc)) as R.
  assert (T : PyFloat.tolower (blank c) = blank c).
  { unfold PyFloat.tolower.
    destruct (N.leb_spec 65 (blank c)); [lia | reflexivity]. }
  unfold start_blocked. rewrite T.
  destruct (range_facts _ R) as (-> & -> & _ & -> & -> & ->).
  cbn [negb andb].
  destruct (N.eqb_spec (blank c) 105); [lia|].
  destruct (N.eqb_spec (blank c) 110); [lia | reflexivity].
Qed.

(** Checked on the tables: no character of a unit symbol can begin a
    number; every key of the infix table has a character that is no
    white space; no unit symbol ends with white space. *)
Lemma blank_tables_checked :
  forallb (fun k => forallb start_blocked (PyFloat.transform k))
    (keys units) = true /\
  forallb (existsb (fun h => negb (Unicode.isspace h))) (keys infixes)
  = true /\
  forallb (ends_without Unicode.isspace) (keys units) = true.
Proof. vm_compute. repeat split. Qed.

Lemma strip_spaces (w : str) : all_space w = true -> PyStr.strip w = [].
Proof.
  intros H. rewrite <- (app_nil_r w).
  change (w ++ []) with (w ++ [] ++ []).
  now rewrite strip_surrounded.
Qed.

End NoNumber.

(** X11.  A unit symbol alone, with or without white space before it,
    raises [IndexError], as the empty text does: nothing is left to
    index.  A text of white space only fails with [ValueError]. *)
Theorem unit_alone_and_blank_text :
  (forall w test_unit name,
      all_space w = true -> In (test_unit, name) units ->
      value_parser (PyStr (w ++ test_unit)) = inl IndexError) /\
  value_parser (PyStr []) = inl IndexError /\
  (forall w, all_space w = true -> w <> [] ->
             value_parser (PyStr w) = inl ValueError).
Proof.
  destruct blank_tables_checked as (K1 & K2 & K3).
  split; [|split; [reflexivity|]].
  - intros w k name Hw Hk. unfold value_parser, float.
    rewrite from_string_blocked.
    + unfold on_value_error.
      now rewrite (strip_unit_app w k name Hk), (strip_spaces w Hw).
    + rewrite (transform_spaces _ _ Hw), forallb_app.
      rewrite (blank_start_blocked w Hw).
      rewrite forallb_forall in K1. exact (K1 k (in_map fst _ _ Hk)).
  - intros w Hw Hne.
    assert (F : PyFloat.from_string w = None).
    { apply from_string_blocked. rewrite <- (app_nil_r w).
      rewrite (transform_spaces _ _ Hw). cbn [PyFloat.transform].
      rewrite app_nil_r. now apply blank_start_blocked. }
    destruct (exists_last Hne) as (w' & d & ->).
    assert (Hd : Unicode.isspace d = true).
    { unfold all_space in Hw. rewrite forallb_forall in Hw. apply Hw.
      apply in_or_app. right. now left. }
    unfold value_parser, float. rewrite F. unfold on_value_error.
    assert (U : strip_unit (w' ++ [d]) = (None, w' ++ [d])).
    { unfold strip_unit, strip_unit_in.
      rewrite find_all_false; [reflexivity|].
      intros [k name] Hk. cbn [fst].
      destruct (PyStr.endswith (w' ++ [d]) k) eqn:E; [|reflexivity].
      rewrite forallb_forall in K3.
      specialize (K3 k (in_map fst _ _ Hk)). unfold ends_without in K3.
      unfold PyStr.endswith in E. rewrite rev_app_distr in E.
      cbn [rev app] in E.
      destruct (rev k) as [|x t]; [discriminate|].
      cbn [PyStr.startswith] in E. apply andb_true_iff in E as [E _].
      apply N.eqb_eq in E. subst x. now rewrite Hd in K3. }
    rewrite U. unfold magnitude. rewrite last_char_app.
    destruct (lookup [d] prefixes) as [m|] eqn:P.
    { apply prefix_key_char, key_char_not_space in P. congruence. }
    unfold first_infix. rewrite find_all_false.
    + unfold float_times, float. now rewrite F.
    + intros kv Hkv.
      destruct (PyStr.contains (fst kv) (w' ++ [d])) eqn:C;
        [|reflexivity].
      apply contains_iff in C as (a & b & E).
      rewrite forallb_forall in K2.
      specialize (K2 _ (in_map fst _ _ Hkv)).
      apply existsb_exists in K2 as (x & Hx & Nx).
      unfold all_space in Hw. rewrite forallb_forall in Hw.
      rewrite (Hw x) in Nx; [discriminate|].
      rewrite E. apply in_or_app. right. apply in_or_app. now left.
Qed.

Lemma unit_alone_and_blank_text_witness :
  value_parser (PyStr (lit "  " ++ lit "Hz")) = inl IndexError /\
  value_parser (PyStr (lit " ")) = inl ValueError.
Proof.
  assert (I : In (lit "Hz", "hertz"%string) units)
    by (unfold units; simpl; tauto).
  split.
  - exact (proj1 unit_alone_and_blank_text (lit "  ") (lit "Hz")
             "hertz"%string eq_refl I).
  - exact (proj2 (proj2 unit_alone_and_blank_text) (lit " ") eq_refl
             ltac:(discriminate)).
Defined.

(** ** Witnesses of the theorems on numbers with prefixes and units *)

Lemma literal_with_prefix_witness :
  value_parser (PyStr (lit "4.7k"))
  = inr (Float64.mul (dec 47 (-1)) (Float64.e10 3), None).
Proof.
  exact (literal_with_prefix
           {| l_sign := None; l_int := [4]; l_frac := Some [7];
              l_exp := None |} 107 (Float64.e10 3) eq_refl eq_refl).
Defined.

Lemma literal_with_unit_witness :
  value_parser (PyStr (lit "10" ++ lit "   " ++ lit "A"))
  = inr (Float64.mul (dec 10 0) Float64.one, Some "ampere"%string).
Proof.
  assert (I : In (lit "A", "ampere"%string) units)
    by (unfold units; simpl; tauto).
  exact (literal_with_unit
           {| l_sign := None; l_int := [1; 0]; l_frac := None;
              l_exp := None |} (lit "   ") (lit "A") "ampere"%string
           eq_refl eq_refl eq_refl I).
Defined.

Lemma literal_with_prefix_and_unit_witness :
  value_parser (PyStr (lit "103.013" ++ [117] ++ lit " " ++ lit "F"))
  = inr (Float64.mul (dec 103013 (-3)) (Float64.e10 (-6)),
         Some "farad"%string).
Proof.
  assert (I : In (lit "F", "farad"%string) units)
    by (unfold units; simpl; tauto).
  exact (literal_with_prefix_and_unit
           {| l_sign := None; l_int := [1; 0; 3]; l_frac := Some [0; 1; 3];
              l_exp := None |} 117 (Float64.e10 (-6)) (lit " ") (lit "F")
           "farad"%string eq_refl eq_refl eq_refl I).
Defined.

(** ** The keys of several characters *)

Section LongKeys.




End LongKeys.



(** ** White space in front *)

Section LeadingSpace.

Lemma remove_underscores_prev (p1 p2 : char) (t : str) :
  PyFloat.is_digit p1 = false -> (p1 =? 95) = false ->
  PyFloat.is_digit p2 = false -> (p2 =? 95) = false ->
  PyFloat.remove_underscores p1 t = PyFloat.remove_underscores p2 t.
Proof.
  intros D1 U1 D2 U2. destruct t as [|c t]; cbn [PyFloat.remove_underscores].
  - now rewrite U1, U2.
  - now rewrite D1, D2, U1, U2.
Qed.

Lemma ascii_space_facts (c : char) :
  PyFloat.is_ascii_space c = true ->
  PyFloat.is_digit c = false /\ (c =? 95) = false.
Proof.
  unfold PyFloat.is_ascii_space, PyFloat.is_digit. intros H.
  assert (R : c <= 32).
  { apply orb_true_iff in H as [H | H].
    - apply andb_true_iff in H as [_ H]. apply N.leb_le in H. lia.
    - apply N.eqb_eq in H. lia. }
  split.
  - apply andb_false_iff. left. apply N.leb_gt. lia.
  - apply N.eqb_neq. lia.
Qed.

Lemma remove_underscores_blanks (b t : str) :
  forallb PyFloat.is_ascii_space b = true ->
  forall prev,
    PyFloat.is_digit prev = false -> (prev =? 95) = false ->
    PyFloat.remove_underscores prev (b ++ t)
    = option_map (app b) (PyFloat.remove_underscores 0 t).
Proof.
  induction b as [|c b IH]; intros Hb prev D U.
  - cbn [app]. rewrite (remove_underscores_prev prev 0 t D U eq_refl eq_refl).
    now destruct (PyFloat.remove_underscores 0 t).
  - cbn [forallb] in Hb. apply andb_true_iff in Hb as [Hc Hb].
    destruct (ascii_space_facts c Hc) as [Dc Uc].
    cbn [app PyFloat.remove_underscores]. rewrite Uc, U. cbn [andb].
    rewrite (IH Hb c Dc Uc).
    now destruct (PyFloat.remove_underscores 0 t).
Qed.

(** White space in front does not change what [float] makes of a text. *)
Lemma from_string_blank (w t : str) :
  forallb float_blank w = true ->
  PyFloat.from_string (w ++ t) = PyFloat.from_string t.
Proof.
  intros H.
  assert (Hw : all_space w = true).
  { unfold all_space. rewrite forallb_forall in *. intros c Hc.
    specialize (H c Hc). unfold float_blank in H.
    now apply andb_true_iff in H as [H _]. }
  assert (Hb : forallb PyFloat.is_ascii_space (map blank w) = true).
  { rewrite forallb_forall in *. intros x Hx.
    apply in_map_iff in Hx as (c & <- & Hc). specialize (H c Hc).
    unfold float_blank in H. now apply andb_true_iff in H as [_ H]. }
  unfold PyFloat.from_string. rewrite (transform_spaces _ _ Hw).
  rewrite (remove_underscores_blanks _ _ Hb 0 eq_refl eq_refl).
  destruct (PyFloat.remove_underscores 0 (PyFloat.transform t)) as [u|];
    [|reflexivity].
  cbn [option_map]. unfold PyFloat.from_string_inner, PyFloat.strip_ascii.
  now rewrite (dropwhile_all _ _ _ Hb).
Qed.

Lemma find_sub_after_spaces (k w s : str) :
  starts_unspaced k = true -> all_space w = true ->
  PyStr.find_sub k (w ++ s)
  = match PyStr.find_sub k s with
    | Some (a, b) => Some (w ++ a, b)
    | None => None
    end.
Proof.
  intros Hk Hw. induction w as [|c w IH].
  - cbn [app]. now destruct (PyStr.find_sub k s) as [[a b]|].
  - unfold all_space in Hw. cbn [forallb] in Hw.
    apply andb_true_iff in Hw as [Hc Hw].
    destruct k as [|x k]; [discriminate|]. cbn [starts_unspaced] in Hk.
    cbn [app PyStr.find_sub PyStr.startswith].
    destruct (N.eqb_spec x c) as [->|];
      [rewrite Hc in Hk; discriminate|].
    cbn [andb]. rewrite (IH Hw).
    now destruct (PyStr.find_sub (x :: k) s) as [[a b]|].
Qed.

Lemma find_ext_in {A} (f g : A -> bool) (l : list A) :
  (forall x, In x l -> f x = g x) -> find f l = find g l.
Proof.
  induction l as [|x l IH]; intros H; [reflexivity|]. cbn [find].
  rewrite (H x (or_introl eq_refl)), IH; [reflexivity|].
  intros; apply H; now right.
Qed.

(** Checked on the tables. *)
Lemma unspaced_tables_checked :
  forallb unspaced (keys units) = true /\
  forallb starts_unspaced (keys infixes) = true.
Proof. vm_compute. split; reflexivity. Qed.

Lemma endswith_after_spaces (k w s : str) :
  unspaced k = true -> all_space w = true -> s <> [] ->
  PyStr.endswith (w ++ s) k = PyStr.endswith s k.
Proof.
  intros Hk Hw Hs.
  destruct (PyStr.endswith s k) eqn:E.
  - apply endswith_iff in E as [p ->]. apply endswith_iff.
    exists (w ++ p). now rewrite app_assoc.
  - destruct (PyStr.endswith (w ++ s) k) eqn:E'; [|reflexivity].
    apply endswith_iff in E' as [p Hp].
    apply app_eq_app in Hp as [l [[-> Hl] | [-> Hl]]].
    + (* the key reaches into the white space *)
      destruct l as [|c l].
      * cbn [app] in Hl. subst k.
        assert (T : PyStr.endswith s s = true)
          by (apply endswith_iff; now exists []).
        rewrite T in E. discriminate.
      * exfalso. unfold unspaced in Hk. rewrite Hl in Hk.
        cbn [app forallb] in Hk. apply andb_true_iff in Hk as [Hc _].
        unfold all_space in Hw. rewrite forallb_app in Hw.
        apply andb_true_iff in Hw as [_ Hw]. cbn [forallb] in Hw.
        apply andb_true_iff in Hw as [Hw _]. now rewrite Hw in Hc.
    + assert (T : PyStr.endswith (l ++ k) k = true)
        by (apply endswith_iff; now exists l).
      rewrite Hl, T in E. discriminate.
Qed.

Lemma slice_to_minus_after (k w s : str) :
  PyStr.endswith s k = true -> k <> [] ->
  PyStr.slice_to_minus (List.length k) (w ++ s)
  = w ++ PyStr.slice_to_minus (List.length k) s.
Proof.
  intros E Hk. apply endswith_iff in E as [p ->].
  rewrite app_assoc, !slice_to_minus_app; auto.
Qed.

Lemma strip_unit_after_spaces (w s : str) :
  all_space w = true -> s <> [] ->
  strip_unit (w ++ s)
  = match strip_unit s with
    | (Some name, rest) => (Some name, rest)
    | (None, _) => (None, w ++ s)
    end.
Proof.
  intros Hw Hs. unfold strip_unit, strip_unit_in.
  destruct unspaced_tables_checked as [K _]. rewrite forallb_forall in K.
  rewrite (find_ext_in _ (fun kv => PyStr.endswith s (fst kv))).
  - destruct (find _ units) as [[k name]|] eqn:F; [|reflexivity].
    apply find_some in F as [Hin E]. cbn [fst] in E.
    rewrite (slice_to_minus_after k w s E (units_keys_nonempty _ Hin)).
    f_equal. rewrite <- (app_nil_r (PyStr.slice_to_minus _ s)) at 1.
    now rewrite strip_surrounded.
  - intros kv Hkv. apply endswith_after_spaces; auto.
    apply K. now apply in_map.
Qed.

Lemma float_times_blank (w t : str) (m : Float64.t) :
  forallb float_blank w = true ->
  float_times (w ++ t) m = float_times t m.
Proof.
  intros H. unfold float_times, float. now rewrite from_string_blank.
Qed.

Lemma magnitude_after_spaces (w s : str) :
  forallb float_blank w = true -> all_space w = true -> s <> [] ->
  magnitude (w ++ s) = magnitude s.
Proof.
  intros H Hw Hs.
  destruct (exists_last Hs) as (s' & d & ->).
  assert (L : PyStr.last_char (w ++ s' ++ [d]) = Some d)
    by (rewrite app_assoc; apply last_char_app).
  assert (L' : PyStr.last_char (s' ++ [d]) = Some d)
    by apply last_char_app.
  destruct (lookup [d] prefixes) as [m|] eqn:P.
  { unfold magnitude. rewrite L, L', P.
    rewrite app_assoc, !removelast_last. now apply float_times_blank. }
  destruct unspaced_tables_checked as [_ K]. rewrite forallb_forall in K.
  assert (F : first_infix (w ++ s' ++ [d]) = first_infix (s' ++ [d])).
  { unfold first_infix. apply find_ext_in. intros kv Hkv.
    unfold PyStr.contains.
    rewrite (find_sub_after_spaces _ w _ (K _ (in_map fst _ _ Hkv)) Hw).
    now destruct (PyStr.find_sub (fst kv) (s' ++ [d])) as [[a b]|]. }
  destruct (first_infix (s' ++ [d])) as [[k m]|] eqn:I.
  - destruct (magnitude_infix _ d k m L P F) as (a & b & Fa & ->).
    destruct (magnitude_infix _ d k m L' P I) as (a' & b' & Fa' & ->).
    assert (Hk : starts_unspaced k = true).
    { apply find_some in I as [I _]. exact (K _ (in_map fst _ _ I)). }
    rewrite (find_sub_after_spaces k w _ Hk Hw), Fa' in Fa.
    injection Fa as <- <-. rewrite <- app_assoc.
    now apply float_times_blank.
  - unfold magnitude. rewrite L, L', P, F, I.
    now apply float_times_blank.
Qed.

End LeadingSpace.

(** X13.  White space in front of a text that is not empty changes
    nothing: the parser gives the same result, or raises the same
    exception, with and without it.  (The white space is any but the
    four ASCII separators 0x1c to 0x1f, which [float] does not trim.) *)
Theorem leading_space_ignored (w s : str) :
  forallb float_blank w = true -> s <> [] ->
  value_parser (PyStr (w ++ s)) = value_parser (PyStr s).
Proof.
  intros H Hs.
  assert (Hw : all_space w = true).
  { unfold all_space. rewrite forallb_forall in *. intros c Hc.
    specialize (H c Hc). unfold float_blank in H.
    now apply andb_true_iff in H as [H _]. }
  unfold value_parser, float. rewrite (from_string_blank w s H).
  destruct (PyFloat.from_string s); [reflexivity|].
  unfold on_value_error. rewrite (strip_unit_after_spaces w s Hw Hs).
  destruct (strip_unit s) as [[name|] rest] eqn:U; [reflexivity|].
  assert (rest = s) as ->.
  { unfold strip_unit, strip_unit_in in U.
    destruct (find _ units) as [[k n]|]; [discriminate|].
    now injection U. }
  now rewrite (magnitude_after_spaces w s H Hw Hs).
Qed.

Lemma leading_space_ignored_witness :
  value_parser (PyStr (lit "  " ++ lit "3k3 V"))
  = value_parser (PyStr (lit "3k3 V")).
Proof.
  exact (leading_space_ignored (lit "  ") (lit "3k3 V") eq_refl
           ltac:(discriminate)).
Defined.

(** * Forms of the same value *)

Section Forms.

Lemma is_some_lookup {V} (k : str) (d : dict V) :
  is_some (lookup k d) = true -> exists v, lookup k d = Some v.
Proof. destruct (lookup k d) as [v|]; [now exists v | discriminate]. Qed.

Lemma nonempty_length {A} (l : list A) :
  negb (Nat.eqb (List.length l) 0) = true -> l <> [].
Proof. now destruct l. Qed.

(** The handler on a text that a unit symbol ends. *)
Lemma handler_with_unit (body w k : str) (name : string) (v : Float64.t) :
  In (k, name) units ->
  PyFloat.from_string (body ++ w ++ k) = None ->
  PyStr.strip (body ++ w) = body -> magnitude body = inr v ->
  value_parser (PyStr (body ++ w ++ k)) = inr (v, Some name).
Proof.
  intros Hk F S M. unfold value_parser, float. rewrite F.
  unfold on_value_error. rewrite app_assoc.
  rewrite (strip_unit_app _ k name Hk), S, M. reflexivity.
Qed.

(** The handler on a text that no unit symbol ends. *)
Lemma handler_without_unit (body : str) (v : Float64.t) :
  PyFloat.from_string body = None -> strip_unit body = (None, body) ->
  magnitude body = inr v ->
  value_parser (PyStr body) = inr (v, None).
Proof.
  intros F S M. unfold value_parser, float. rewrite F.
  unfold on_value_error. rewrite S, M. reflexivity.
Qed.

Lemma digit_not_space (d : char) :
  PyFloat.is_digit d = true -> Unicode.isspace d = false.
Proof.
  unfold PyFloat.is_digit. intros H. apply andb_true_iff in H as [H1 H2].
  apply N.leb_le in H1. apply N.leb_le in H2.
  apply printable_not_space; lia.
Qed.

Lemma whole_well_formed (sg : option bool) (ip : list N) :
  all_digits ip = true -> ip <> [] ->
  well_formed {| l_sign := sg; l_int := ip; l_frac := None;
                 l_exp := None |} = true.
Proof.
  intros Hi Ni. unfold well_formed, frac_digits.
  cbn [l_int l_frac l_exp]. rewrite Hi, app_nil_r. now destruct ip.
Qed.

Lemma decimal_well_formed (sg : option bool) (ip fp : list N) :
  all_digits ip = true -> ip <> [] -> all_digits fp = true ->
  well_formed (decimal sg ip fp) = true.
Proof.
  intros Hi Ni Hf. unfold well_formed, frac_digits, decimal.
  cbn [l_int l_frac l_exp]. rewrite Hi, Hf, length_app. now destruct ip.
Qed.

Lemma infixed_after_whole (sg : option bool) (ip fp : list N) (c : char)
  (t : str) :
  (sign_text sg ++ digits_text ip ++ [c] ++ digits_text fp) ++ t
  = render {| l_sign := sg; l_int := ip; l_frac := None; l_exp := None |}
      ++ c :: digits_text fp ++ t.
Proof.
  unfold render. cbn [l_sign l_int l_frac l_exp frac_text exp_text].
  now rewrite !app_nil_r, <- !app_assoc.
Qed.

(** A key character other than [E], digits, white space and a unit
    symbol: refused after a literal. *)
Lemma refused_key_digits_unit (c : char) (fp : list N) (w k : str)
  (name : string) :
  key_char c = true -> c <> 69 -> all_digits fp = true -> fp <> [] ->
  all_space w = true -> In (k, name) units ->
  refused_tail (PyFloat.transform (c :: digits_text fp ++ w ++ k)) = true.
Proof.
  intros Hc N69 Hf Hne Hw Hk. unfold key_char in Hc.
  apply orb_true_iff in Hc as [Hc | Hc];
    [|now rewrite (transform_foreign _ _ Hc)].
  rewrite (transform_ascii _ _ Hc).
  rewrite (transform_app_inert _ _ (digits_text_inert fp Hf)).
  rewrite (transform_spaces _ _ Hw).
  destruct (unit_key_tail k name Hk) as [R _].
  pose proof (refused_after_spaces w _ Hw R) as T.
  unfold refused_tail in T.
  apply andb_true_iff in T as [T Te].
  apply andb_true_iff in T as [_ Tu].
  destruct (ascii_key_char_facts c Hc) as (D & P & E & U).
  unfold refused_tail.
  apply andb_true_iff; split; [apply andb_true_iff; split|].
  - cbn [tail_blocks]. rewrite D, P, E.
    now destruct (N.eqb_spec c 69).
  - unfold no_underscore in *. cbn [forallb]. rewrite U. cbn [negb andb].
    rewrite forallb_app. apply andb_true_iff. split; [|exact Tu].
    pose proof (digits_text_inert fp Hf) as I.
    apply forallb_forall. intros x Hx.
    rewrite forallb_forall in I. specialize (I x Hx).
    unfold inert in I. apply andb_true_iff in I as [I _].
    now apply andb_true_iff in I as [_ I].
  - apply (ends_without_app _ (c :: digits_text fp)). exact Te.
Qed.

Lemma strip_infixed (sg : option bool) (ip fp : list N) (c : char)
  (w : str) :
  all_digits ip = true -> ip <> [] -> all_digits fp = true -> fp <> [] ->
  all_space w = true ->
  PyStr.strip ((sign_text sg ++ digits_text ip ++ [c] ++ digits_text fp)
                 ++ w)
  = sign_text sg ++ digits_text ip ++ [c] ++ digits_text fp.
Proof.
  intros Hi Ni Hf Nf Hw.
  destruct (render_head _ (whole_well_formed sg ip Hi Ni))
    as (h & r & Hx & Hh).
  pose proof (infixed_after_whole sg ip fp c []) as E.
  rewrite !app_nil_r in E. rewrite Hx in E.
  apply (strip_then_spaces _ _ h (r ++ c :: digits_text fp)); auto.
  destruct (rev_digits_text fp (sign_text sg ++ digits_text ip ++ [c])
              Hf Nf) as (d & t & Hr & Hd).
  rewrite <- !app_assoc in Hr. unfold ends_without. rewrite Hr.
  apply negb_true_iff. now apply digit_not_space.
Qed.

Lemma magnitude_infixed (sg : option bool) (ip fp : list N) (c : char)
  (m : Float64.t) :
  all_digits ip = true -> ip <> [] -> all_digits fp = true -> fp <> [] ->
  In ([c], m) infixes ->
  magnitude (sign_text sg ++ digits_text ip ++ [c] ++ digits_text fp)
  = inr (Float64.mul (literal_value (decimal sg ip fp)) m).
Proof.
  intros Hi Ni Hf Nf Hc.
  rewrite (app_assoc (sign_text sg)).
  rewrite (magnitude_infix_between _ _ c m Hc (sign_digits_lower sg ip Hi)
             (digit_is_lower_literal _ (digits_text_chars fp Hf))
             (digits_text_nonempty fp Nf)).
  replace ((sign_text sg ++ digits_text ip) ++ lit "." ++ digits_text fp)
    with (render (decimal sg ip fp)).
  - unfold float_times, float.
    now rewrite (from_string_render _ (decimal_well_formed sg ip fp Hi Ni Hf)).
  - unfold render, decimal.
    cbn [l_sign l_int l_frac l_exp frac_text exp_text].
    now rewrite app_nil_r, <- app_assoc.
Qed.

Lemma lookup_prefix_infix (c : char) (m : Float64.t) :
  lookup [c] prefixes = Some m -> lookup [c] infixes = Some m.
Proof. intros H. now rewrite infixes_eq, lookup_app, H. Qed.

(** What each form parses to. *)
Lemma form_parses (f : form) :
  form_ok f = true ->
  value_parser (PyStr (form_text f)) = inr (form_reading f, form_unit f).
Proof.
  destruct f as [n u]. unfold form_ok, form_text, form_reading,
    form_multiplier, form_literal, form_unit.
  cbn [f_number f_unit]. destruct u as [[w k]|].
  - (* a unit symbol *)
    intros H. apply andb_true_iff in H as [H Hk].
    apply andb_true_iff in H as [H Hw].
    apply is_some_lookup in Hk as (name & Hk). rewrite Hk.
    apply lookup_in in Hk.
    destruct n as [l | l c | sg ip fp c]; cbn [number_ok number_text] in *.
    + apply andb_true_iff in H as [H U]. cbn [negb orb] in U.
      apply handler_with_unit; auto.
      * now apply (float_refuses_unit l w k name).
      * now apply strip_literal.
      * now apply magnitude_plain.
    + apply andb_true_iff in H as [H Hc].
      apply is_some_lookup in Hc as (m & Hc). rewrite Hc.
      apply handler_with_unit; auto.
      * rewrite <- app_assoc.
        now apply (float_refuses_prefix_unit l c m w k name).
      * apply strip_literal_prefix; auto. now apply (prefix_key_char c m).
      * now apply magnitude_trailing.
    + apply andb_true_iff in H as [H N69].
      apply negb_true_iff, N.eqb_neq in N69.
      apply andb_true_iff in H as [H Hc].
      apply is_some_lookup in Hc as (m & Hc). rewrite Hc.
      apply lookup_in in Hc.
      apply andb_true_iff in H as [H Nf]. apply nonempty_length in Nf.
      apply andb_true_iff in H as [H Hf].
      apply andb_true_iff in H as [Hi Ni]. apply nonempty_length in Ni.
      apply handler_with_unit; auto.
      * rewrite (infixed_after_whole sg ip fp c (w ++ k)).
        apply from_string_after_literal;
          [now apply whole_well_formed|].
        apply (refused_key_digits_unit c fp w k name); auto.
        now apply (infix_key_char c m).
      * now apply strip_infixed.
      * now apply magnitude_infixed.
  - (* no unit symbol *)
    intros H.
    destruct n as [l | l c | sg ip fp c]; cbn [number_ok number_text] in *.
    + apply andb_true_iff in H as [H _].
      unfold value_parser, float. now rewrite (from_string_render l H).
    + apply andb_true_iff in H as [H Hc].
      apply is_some_lookup in Hc as (m & Hc). rewrite Hc.
      now apply single_char_prefix_trails.
    + apply andb_true_iff in H as [H N69].
      apply negb_true_iff, N.eqb_neq in N69.
      apply andb_true_iff in H as [H Hc].
      apply is_some_lookup in Hc as (m & Hc). rewrite Hc.
      apply lookup_in in Hc.
      apply andb_true_iff in H as [H Nf]. apply nonempty_length in Nf.
      apply andb_true_iff in H as [H Hf].
      apply andb_true_iff in H as [Hi Ni]. apply nonempty_length in Ni.
      apply handler_without_unit.
      * pose proof (infixed_after_whole sg ip fp c []) as E.
        rewrite !app_nil_r in E. rewrite E.
        apply from_string_after_literal;
          [now apply whole_well_formed|].
        apply refused_key_digits; auto. now apply (infix_key_char c m).
      * destruct (rev_digits_text fp
                    (sign_text sg ++ digits_text ip ++ [c]) Hf Nf)
          as (d & r & Hr & Hd).
        rewrite <- !app_assoc in Hr.
        apply (no_unit_after_literal_char _ d r Hr).
        now apply digit_lower_literal.
      * now apply magnitude_infixed.
Qed.

End Forms.

(** C1, refuted as stated: ["1000"] and ["1E3"] are the same number for
    [float], yet with the same unit symbol after them the two texts parse
    to magnitudes that differ by fifteen orders: before a unit symbol the
    upper-case [E] is read as the infix of exa.  Nor do two forms of a
    resistance carry the same unit: in ["4.7R"] the [R] is a unit symbol,
    in ["4R7"] it is an infix and the result has no unit. *)
Lemma equivalent_forms_counterexample :
  float (PyStr (lit "1000")) = inr (dec 1000 0) /\
  float (PyStr (lit "1E3")) = inr (dec 1000 0) /\
  value_parser (PyStr (lit "1000V")) = inr (dec 1000 0, Some "volt"%string) /\
  value_parser (PyStr (lit "1E3V")) = inr (dec 13 17, Some "volt"%string) /\
  SFltb (Float64.mul (dec 1000 0) (dec 1 15)) (dec 13 17) = true /\
  value_parser (PyStr (lit "4.7R")) = inr (dec 47 (-1), Some "ohm"%string) /\
  value_parser (PyStr (lit "4R7")) = inr (dec 47 (-1), None).
Proof. vm_compute. repeat split. Qed.

(** C1, amended.  Every form of a value -- a decimal literal, alone, with
    a one-character prefix after it or with a one-character infix other
    than [E] in the place of its point, and optionally white space and a
    unit symbol after that (a literal with a unit symbol directly after
    it having no upper-case [E]) -- parses to the double nearest to its
    literal times its multiplier, with the unit of its symbol.  So two
    forms that write the same literal with the same multiplier parse to
    the same magnitude, each with the unit of its own symbol.  The forms
    ["4700"], ["4.7k"], ["4k7"] and ["4700R"] all parse to the magnitude
    4700, without a unit for the first three and with the unit ohm for
    the fourth; the forms of 3300 that the specification lists parse to
    one and the same magnitude. *)
Theorem equivalent_forms_same_magnitude :
  (forall f,
      form_ok f = true ->
      value_parser (PyStr (form_text f))
      = inr (form_reading f, form_unit f)) /\
  (forall f g,
      form_ok f = true -> form_ok g = true ->
      form_literal f = form_literal g ->
      form_multiplier f = form_multiplier g ->
      exists v,
        value_parser (PyStr (form_text f)) = inr (v, form_unit f) /\
        value_parser (PyStr (form_text g)) = inr (v, form_unit g)) /\
  value_parser (PyStr (lit "4700")) = inr (dec 4700 0, None) /\
  value_parser (PyStr (lit "4.7k")) = inr (dec 4700 0, None) /\
  value_parser (PyStr (lit "4k7")) = inr (dec 4700 0, None) /\
  value_parser (PyStr (lit "4700R")) = inr (dec 4700 0, Some "ohm"%string) /\
  value_parser (PyStr (lit "3300")) = inr (dec 3300 0, None) /\
  value_parser (PyStr (lit "3k3")) = inr (dec 3300 0, None) /\
  value_parser (PyStr (lit "3.3k")) = inr (dec 3300 0, None) /\
  value_parser (PyStr (lit "3300R")) = inr (dec 3300 0, Some "ohm"%string) /\
  value_parser (PyStr (lit "3.3k" ++ [0x3a9]))
    = inr (dec 3300 0, Some "ohm"%string).
Proof.
  split; [exact form_parses|]. split; [|vm_compute; repeat split].
  intros f g Hf Hg El Em. exists (form_reading f). split.
  - now apply form_parses.
  - rewrite (form_parses g Hg). unfold form_reading. now rewrite El, Em.
Qed.

Lemma equivalent_forms_same_magnitude_witness :
  form_ok {| f_number := Infixed None [4] [7] 107; f_unit := None |} = true /\
  form_ok {| f_number := Trailing (decimal None [4] [7]) 107;
             f_unit := Some (lit " ", [0x3a9]) |} = true /\
  form_text {| f_number := Infixed None [4] [7] 107; f_unit := None |}
    = lit "4k7" /\
  form_text {| f_number := Trailing (decimal None [4] [7]) 107;
               f_unit := Some (lit " ", [0x3a9]) |}
    = lit "4.7k " ++ [0x3a9] /\
  value_parser (PyStr (lit "4k7"))
    = inr (Float64.mul (dec 47 (-1)) (dec 1 3), None) /\
  exists v,
    value_parser (PyStr (lit "4k7")) = inr (v, None) /\
    value_parser (PyStr (lit "4.7k " ++ [0x3a9]))
      = inr (v, Some "ohm"%string).
Proof.
  refine (conj eq_refl (conj eq_refl (conj eq_refl (conj eq_refl
          (conj _ _))))).
  - exact (proj1 equivalent_forms_same_magnitude
             {| f_number := Infixed None [4] [7] 107; f_unit := None |}
             eq_refl).
  - exact (proj1 (proj2 equivalent_forms_same_magnitude)
             {| f_number := Infixed None [4] [7] 107; f_unit := None |}
             {| f_number := Trailing (decimal None [4] [7]) 107;
                f_unit := Some (lit " ", [0x3a9]) |}
             eq_refl eq_refl eq_refl eq_refl).
Defined.
